(** * GPyOpt manual notebooks: the bandit and the modular notebook

    A shallow embedding of the code cells of
    [manual/GPyOpt_bandits_optimization.ipynb] (the weather-station
    bandit notebook followed by the modular notebook with the
    jitter-integrated Expected Improvement) and the properties of that
    code.

    Conventions.
    - A Python [float] and a numpy [float64] entry is a primitive binary64
      float ([PrimFloat.float]); comparisons and arithmetic are the IEEE
      ones. The builtin [float(s)] on strings is a parameter of the
      loading code.
    - A Python [str] is a [string]; a Python list and a one-dimensional
      numpy array is a [list]; an N x 2 array is a list of pairs, a
      general two-dimensional array a list of rows.
    - A Python [dict] is an association list with unique keys; its
      iteration order is the order of the list (insertion order).
    - A statement that can raise returns a [result]; a raised exception
      that nothing catches ends the cell.
    - An object with attributes that the code assigns to is a record,
      and a method that assigns returns the object after the call.
    - Objects and functions of GPyOpt and numpy's random generator are
      variables of the sections that use them. *)

From Stdlib Require Import Floats List String Ascii Bool Arith Lia ZArith Uint63.
Import ListNotations.

(* ===================================================================== *)
(** * Python runtime: exceptions, sequences, strings, dictionaries *)
(* ===================================================================== *)

Module Py.

Inductive exn : Type := IndexError | KeyError | ValueError.

Inductive result (A : Type) : Type :=
| Ok (a : A)
| Raise (e : exn).

Arguments Ok {A} a.
Arguments Raise {A} e.

Definition bind {A B} (r : result A) (k : A -> result B) : result B :=
  match r with
  | Ok a => k a
  | Raise e => Raise e
  end.

Definition of_option {A} (e : exn) (o : option A) : result A :=
  match o with
  | Some a => Ok a
  | None => Raise e
  end.

(** [l[i]] for a non-negative [i]. *)
Definition index {A} (l : list A) (i : nat) : result A :=
  of_option IndexError (nth_error l i).

(** [s.split(' ')]: one field per separator, empty fields kept. *)
Fixpoint split (sep : ascii) (s : string) : list string :=
  match s with
  | EmptyString => [EmptyString]
  | String c rest =>
      if Ascii.eqb c sep then EmptyString :: split sep rest
      else match split sep rest with
           | [] => [String c EmptyString]
           | w :: ws => String c w :: ws
           end
  end.

(** [s[:-1]]: all but the last character; the empty string stays empty. *)
Fixpoint drop_last (s : string) : string :=
  match s with
  | EmptyString => EmptyString
  | String c EmptyString => EmptyString
  | String c rest => String c (drop_last rest)
  end.

(** [range(lo, hi)]. *)
Definition range (lo hi : nat) : list nat := seq lo (hi - lo).

(** Keys of a dictionary: equality is decided by [keqb]. *)
Class EqKey (K : Type) : Type := {
  keqb : K -> K -> bool;
  keqb_spec : forall x y, keqb x y = true <-> x = y
}.

#[export] Instance string_EqKey : EqKey string :=
  {| keqb := String.eqb; keqb_spec := String.eqb_eq |}.

Lemma pair_eqb_spec {A B : Type} `{EqKey A} `{EqKey B} (x y : A * B) :
  keqb (fst x) (fst y) && keqb (snd x) (snd y) = true <-> x = y.
Proof.
  destruct x as [a b], y as [a' b']; simpl.
  rewrite andb_true_iff, !keqb_spec. split.
  - intros [-> ->]; reflexivity.
  - intros E; inversion E; auto.
Qed.

#[export] Instance pair_EqKey (A B : Type) `{EqKey A} `{EqKey B} : EqKey (A * B) :=
  {| keqb := fun x y => keqb (fst x) (fst y) && keqb (snd x) (snd y);
     keqb_spec := pair_eqb_spec (A:=A) (B:=B) |}.

(** [float(s)] on short signed decimal literals ([-12], [30.25], [12.],
    [.5]): at most 15 fraction digits and fewer than 2^53 as an integer
    of all digits, where one correctly rounded division gives the
    literal's binary64 value. Every other string is refused here, though
    the builtin accepts more (exponents, blanks, [inf]). *)
Definition digit_value (c : ascii) : option Z :=
  let n := nat_of_ascii c in
  if (48 <=? n)%nat && (n <=? 57)%nat then Some (Z.of_nat (n - 48)) else None.

Fixpoint digits (s : string) (acc : Z) : option Z :=
  match s with
  | EmptyString => Some acc
  | String c rest =>
      match digit_value c with
      | Some d => digits rest (10 * acc + d)
      | None => None
      end
  end.

Definition float_of_Z (z : Z) : float := PrimFloat.of_uint63 (Uint63.of_Z z).

Definition unsigned_decimal (s : string) : option float :=
  match split "."%char s with
  | [ip] =>
      match ip, digits ip 0 with
      | String _ _, Some n =>
          if (n <? 2 ^ 53)%Z then Some (float_of_Z n) else None
      | _, _ => None
      end
  | [ip; fp] =>
      match String.length ip + String.length fp, digits (ip ++ fp) 0 with
      | S _, Some n =>
          if (n <? 2 ^ 53)%Z && (String.length fp <=? 15)%nat
          then Some (PrimFloat.div (float_of_Z n)
                       (float_of_Z (10 ^ Z.of_nat (String.length fp))))
          else None
      | _, _ => None
      end
  | _ => None
  end.

Definition decimal_float (s : string) : option float :=
  match s with
  | String "-"%char rest => option_map PrimFloat.opp (unsigned_decimal rest)
  | _ => unsigned_decimal s
  end.

Section Dict.
Context {K V : Type} `{EqKey K}.

Definition dict : Type := list (K * V).

(** [d[k]] read; [None] is the [KeyError]. *)
Fixpoint getitem (d : dict) (k : K) : option V :=
  match d with
  | [] => None
  | (k', v) :: rest => if keqb k k' then Some v else getitem rest k
  end.

(** [d[k] = v]: an existing key keeps its place, a new one goes last. *)
Fixpoint setitem (d : dict) (k : K) (v : V) : dict :=
  match d with
  | [] => [(k, v)]
  | (k', v') :: rest =>
      if keqb k k' then (k', v) :: rest else (k', v') :: setitem rest k v
  end.

(** [d.keys()], in iteration order. *)
Definition keys (d : dict) : list K := map fst d.
End Dict.

Arguments dict : clear implicits.

(** ** Facts about dictionaries *)

Section DictFacts.
Context {K V : Type} `{EqKey K}.

Lemma keqb_refl (k : K) : keqb k k = true.
Proof. apply keqb_spec; reflexivity. Qed.

Lemma keqb_neq (k k' : K) : k <> k' -> keqb k k' = false.
Proof.
  intros N. destruct (keqb k k') eqn:E; [|reflexivity].
  apply keqb_spec in E. contradiction.
Qed.

Lemma keqb_dec (k k' : K) : {k = k'} + {k <> k'}.
Proof.
  destruct (keqb k k') eqn:E.
  - left. apply keqb_spec; assumption.
  - right. intros ->. rewrite keqb_refl in E. discriminate.
Qed.

Lemma getitem_setitem_same (d : dict K V) k v :
  getitem (setitem d k v) k = Some v.
Proof.
  induction d as [|[k' v'] d IH]; simpl.
  - rewrite keqb_refl; reflexivity.
  - destruct (keqb k k') eqn:E; simpl; rewrite E; auto.
Qed.

Lemma getitem_setitem_other (d : dict K V) k k' v :
  k <> k' -> getitem (setitem d k v) k' = getitem d k'.
Proof.
  intros N. induction d as [|[k0 v0] d IH]; simpl.
  - rewrite keqb_neq; auto.
  - destruct (keqb k k0) eqn:E; simpl.
    + apply keqb_spec in E; subst k0.
      rewrite (keqb_neq k' k) by congruence. reflexivity.
    + rewrite IH. reflexivity.
Qed.

Lemma setitem_setitem (d : dict K V) k v v' :
  setitem (setitem d k v) k v' = setitem d k v'.
Proof.
  induction d as [|[k0 v0] d IH]; simpl.
  - rewrite keqb_refl; reflexivity.
  - destruct (keqb k k0) eqn:E; simpl; rewrite E; [reflexivity|].
    rewrite IH; reflexivity.
Qed.

Lemma getitem_None_keys (d : dict K V) k :
  getitem d k = None <-> ~ In k (keys d).
Proof.
  induction d as [|[k0 v0] d IH]; simpl.
  - tauto.
  - destruct (keqb k k0) eqn:E.
    + apply keqb_spec in E; subst. split; [discriminate|]. tauto.
    + rewrite IH. split.
      * intros N [->|I]; [rewrite keqb_refl in E; discriminate | tauto].
      * tauto.
Qed.

Lemma getitem_Some_keys (d : dict K V) k v :
  getitem d k = Some v -> In k (keys d).
Proof.
  intros G. destruct (in_dec keqb_dec k (keys d)) as [I|N]; [assumption|].
  apply getitem_None_keys in N. congruence.
Qed.

Lemma keys_setitem_present (d : dict K V) k v v0 :
  getitem d k = Some v0 -> keys (setitem d k v) = keys d.
Proof.
  induction d as [|[k0 v1] d IH]; simpl; [discriminate|].
  destruct (keqb k k0) eqn:E; simpl; [reflexivity|].
  intros G. f_equal. apply IH; assumption.
Qed.

Lemma keys_setitem_absent (d : dict K V) k v :
  getitem d k = None -> keys (setitem d k v) = keys d ++ [k].
Proof.
  induction d as [|[k0 v1] d IH]; simpl; [reflexivity|].
  destruct (keqb k k0) eqn:E; simpl; [discriminate|].
  intros G. f_equal. apply IH; assumption.
Qed.

Lemma NoDup_keys_setitem (d : dict K V) k v :
  NoDup (keys d) -> NoDup (keys (setitem d k v)).
Proof.
  intros ND. destruct (getitem d k) as [v0|] eqn:G.
  - erewrite keys_setitem_present by eassumption. assumption.
  - rewrite keys_setitem_absent by assumption.
    apply NoDup_app; [assumption | repeat constructor; simpl; tauto |].
    intros x I [<-|[]]. apply getitem_None_keys in G. contradiction.
Qed.

End DictFacts.

(** ** Facts about [split] and [drop_last] *)

(** [sep.join(fields)]. *)
Fixpoint join (sep : ascii) (fields : list string) : string :=
  match fields with
  | [] => EmptyString
  | [w] => w
  | w :: rest => (w ++ String sep (join sep rest))%string
  end.

(** The number of occurrences of a character. *)
Fixpoint count_char (c : ascii) (s : string) : nat :=
  match s with
  | EmptyString => 0
  | String c' rest => (if Ascii.eqb c' c then 1 else 0) + count_char c rest
  end.

Lemma split_not_nil (sep : ascii) (s : string) : split sep s <> [].
Proof.
  induction s as [|c s IH]; simpl; [discriminate|].
  destruct (Ascii.eqb c sep); [discriminate|].
  destruct (split sep s); [congruence|discriminate].
Qed.

Lemma join_split (sep : ascii) (s : string) : join sep (split sep s) = s.
Proof.
  induction s as [|c s IH]; [reflexivity|]. simpl.
  destruct (Ascii.eqb c sep) eqn:E.
  - apply Ascii.eqb_eq in E; subst c.
    destruct (split sep s) as [|w ws] eqn:S; [destruct (split_not_nil _ _ S)|].
    change (join sep (EmptyString :: w :: ws))
      with (String sep (join sep (w :: ws))).
    rewrite IH. reflexivity.
  - destruct (split sep s) as [|w ws] eqn:S; [destruct (split_not_nil _ _ S)|].
    destruct ws as [|w' ws]; simpl in *; rewrite IH; reflexivity.
Qed.

Lemma length_split (sep : ascii) (s : string) :
  List.length (split sep s) = S (count_char sep s).
Proof.
  induction s as [|c s IH]; [reflexivity|]. simpl.
  destruct (Ascii.eqb c sep); simpl; [rewrite IH; reflexivity|].
  destruct (split sep s) as [|w ws] eqn:S; [destruct (split_not_nil _ _ S)|].
  simpl in *. exact IH.
Qed.

Lemma split_fields_free (sep : ascii) (s : string) :
  Forall (fun w => count_char sep w = 0) (split sep s).
Proof.
  induction s as [|c s IH]; simpl.
  - repeat constructor.
  - destruct (Ascii.eqb c sep) eqn:E.
    + constructor; [reflexivity|exact IH].
    + destruct (split sep s) as [|w ws]; [repeat constructor; simpl; rewrite E; reflexivity|].
      inversion IH; subst. constructor; [|assumption].
      simpl. rewrite E. assumption.
Qed.

Lemma drop_last_app (m : string) (c : ascii) :
  drop_last (m ++ String c EmptyString) = m.
Proof.
  induction m as [|a m IH]; [reflexivity|].
  simpl. rewrite IH. destruct m; reflexivity.
Qed.

(** X1. [s.split(sep)] loses nothing: the fields joined by [sep] give [s]
    back, no field contains [sep], and there is one field more than
    there are separators in [s] (so two adjacent separators give an
    empty field). *)
Theorem split_round_trip (sep : ascii) (s : string) :
  join sep (split sep s) = s /\
  Forall (fun w => count_char sep w = 0) (split sep s) /\
  List.length (split sep s) = S (count_char sep s).
Proof.
  split; [apply join_split|]. split; [apply split_fields_free|apply length_split].
Qed.

End Py.

Import Py.

Declare Scope py_scope.
Notation "x <- e ;; k" := (Py.bind e (fun x => k))
  (at level 61, e at next level, right associativity) : py_scope.
Notation "' p <- e ;; k" := (Py.bind e (fun x => match x with p => k end))
  (at level 61, p pattern, e at next level, right associativity) : py_scope.
Open Scope py_scope.
Open Scope string_scope.

(* ===================================================================== *)
(** * Bandit notebook: loading the weather-station file *)
(* ===================================================================== *)

Module Weather.

(** The per-day entry [{'MaxT': ..., 'MinT': ...}]. *)
Record day_record : Type := { MaxT : float; MinT : float }.

(** The key [(line_split[0], line_split[1])]. *)
Definition station_key : Type := (string * string)%type.

(** [forecast_dict]: station key -> day -> entry. *)
Definition forecast : Type := dict station_key (dict string day_record).

(** Which block of the [try] statement completed a line. *)
Inductive branch : Type := TryBranch | ExceptBranch.

Section Loading.

(** The builtin [float(s)] on a string; [None] is its [ValueError]. *)
Variable pyfloat : string -> option float.

Definition float_of (s : string) : result float :=
  of_option ValueError (pyfloat s).

(** The right-hand side
    [{'MaxT':float(line_split[3]), 'MinT':float(line_split[4][:-1])}]. *)
Definition day_entry (line_split : list string) : result day_record :=
  f3 <- index line_split 3 ;;
  maxT <- float_of f3 ;;
  f4 <- index line_split 4 ;;
  minT <- float_of (drop_last f4) ;;
  Ok {| MaxT := maxT; MinT := minT |}.

(** The assignment
    [forecast_dict[line_split[0], line_split[1]][line_split[2]] = {...}]
    (source lines 74-75 and again 78-79): Python evaluates the right-hand
    side, then the subscripted target from the left. *)
Definition store_day (forecast_dict : forecast) (line_split : list string)
  : result forecast :=
  entry <- day_entry line_split ;;
  k0 <- index line_split 0 ;;
  k1 <- index line_split 1 ;;
  days <- of_option KeyError (getitem forecast_dict (k0, k1)) ;;
  k2 <- index line_split 2 ;;
  Ok (setitem forecast_dict (k0, k1) (setitem days k2 entry)).

(** [forecast_dict[line_split[0], line_split[1]] = {}] (source line 77). *)
Definition init_station (forecast_dict : forecast) (line_split : list string)
  : result forecast :=
  k0 <- index line_split 0 ;;
  k1 <- index line_split 1 ;;
  Ok (setitem forecast_dict (k0, k1) []).

(** One iteration of the loop: the [try] block, and on any exception
    (the [except:] is bare) the handler. An exception of the handler is
    not caught. *)
Definition process_line (forecast_dict : forecast) (text : string)
  : branch * result forecast :=
  let line_split := split " "%char text in
  match store_day forecast_dict line_split with
  | Ok d => (TryBranch, Ok d)
  | Raise _ =>
      (ExceptBranch,
       d <- init_station forecast_dict line_split ;;
       store_day d line_split)
  end.

(** The loop body run over a list of lines, with the branch each line
    took. *)
Fixpoint run_lines (lines : list string) (forecast_dict : forecast)
  : list branch * result forecast :=
  match lines with
  | [] => ([], Ok forecast_dict)
  | text :: rest =>
      let (b, r) := process_line forecast_dict text in
      match r with
      | Ok d => let (bs, r') := run_lines rest d in (b :: bs, r')
      | Raise e => ([b], Raise e)
      end
  end.

(** [for line in range(1, len(contents)): ... contents[line] ...]. *)
Fixpoint parse_loop (contents : list string) (idxs : list nat)
  (forecast_dict : forecast) : list branch * result forecast :=
  match idxs with
  | [] => ([], Ok forecast_dict)
  | line :: rest =>
      match index contents line with
      | Raise e => ([], Raise e)
      | Ok text =>
          let (b, r) := process_line forecast_dict text in
          match r with
          | Ok d => let (bs, r') := parse_loop contents rest d in (b :: bs, r')
          | Raise e => ([b], Raise e)
          end
      end
  end.

(** The first half of the cell: [forecast_dict = {}] and the loop. *)
Definition parse (contents : list string) : list branch * result forecast :=
  parse_loop contents (range 1 (List.length contents)) [].

Definition day_out : string := "0".

(** One station of the second loop: [forecast_dict[key][day_out][temp]]
    with [temp = 'MaxT'] (already a float), [float(key[0])],
    [float(key[1])]. *)
Definition station_row (forecast_dict : forecast) (key : station_key)
  : result (float * float * float) :=
  days <- of_option KeyError (getitem forecast_dict key) ;;
  entry <- of_option KeyError (getitem days day_out) ;;
  la <- float_of (fst key) ;;
  lo <- float_of (snd key) ;;
  Ok (MaxT entry, la, lo).

(** [for key in keys: temperature.append(..); lat.append(..); lon.append(..)]. *)
Fixpoint extract_loop (forecast_dict : forecast) (ks : list station_key)
  (temperature lat lon : list float)
  : result (list float * list float * list float) :=
  match ks with
  | [] => Ok (temperature, lat, lon)
  | key :: rest =>
      ' (t, la, lo) <- station_row forecast_dict key ;;
      extract_loop forecast_dict rest
        (temperature ++ [t]) (lat ++ [la]) (lon ++ [lo])
  end.

Definition extract (forecast_dict : forecast)
  : result (list float * list float * list float) :=
  extract_loop forecast_dict (keys forecast_dict) [] [] [].

End Loading.

(** [a > c] and [a < c] on an array. *)
Definition gt (a : list float) (c : float) : list bool :=
  map (fun v => (c <? v)%float) a.

Definition lt (a : list float) (c : float) : list bool :=
  map (fun v => (v <? c)%float) a.

(** [np.logical_and(a, b)] on arrays of one length. *)
Definition logical_and (a b : list bool) : list bool :=
  map (fun p => fst p && snd p) (combine a b).

(** [rows[sel,:]]: the rows whose mask entry is [True]; numpy raises an
    [IndexError] when the mask and the array differ in length. *)
Fixpoint mask_rows {A} (sel : list bool) (rows : list A) : result (list A) :=
  match sel, rows with
  | [], [] => Ok []
  | b :: sel', r :: rows' =>
      rest <- mask_rows sel' rows' ;;
      Ok (if b then r :: rest else rest)
  | _, _ => Raise IndexError
  end.

(** The mask [sel] of source line 92. *)
Definition sel (lat lon : list float) : list bool :=
  logical_and (logical_and (gt lat 24) (lt lat 51))
              (logical_and (gt lon (-130)) (lt lon (-65))).

(** Source lines 90-96: rows are [[lon, lat]]; the temperatures are a
    column. *)
Definition filter_stations (temperature lat lon : list float)
  : result (list (float * float) * list float) :=
  let stations_coordinates_all := combine lon lat in
  let stations_maxT_all := temperature in
  stations_coordinates <- mask_rows (sel lat lon) stations_coordinates_all ;;
  stations_maxT <- mask_rows (sel lat lon) stations_maxT_all ;;
  Ok (stations_coordinates, stations_maxT).

(** The second half of the cell, from [keys = forecast_dict.keys()]. *)
Definition stations (pyfloat : string -> option float) (forecast_dict : forecast)
  : result (list (float * float) * list float) :=
  ' (temperature, lat, lon) <- extract pyfloat forecast_dict ;;
  filter_stations temperature lat lon.

(** The whole cell: [(stations_coordinates, stations_maxT)]. *)
Definition load (pyfloat : string -> option float) (contents : list string)
  : result (list (float * float) * list float) :=
  forecast_dict <- snd (parse pyfloat contents) ;;
  stations pyfloat forecast_dict.


(** ** The parsing loop *)

Section LoadingFacts.

Variable pyfloat : string -> option float.

(** What the file format promises of a data line: at least five fields
    separated by single spaces, the fourth and the fifth (without its
    last character) accepted by [float]. The result names the station
    key, the day and the entry of the line. *)
Definition line_fields (text : string)
  : option (station_key * string * day_record) :=
  match split " "%char text with
  | f0 :: f1 :: f2 :: f3 :: f4 :: _ =>
      match pyfloat f3, pyfloat (drop_last f4) with
      | Some a, Some b => Some ((f0, f1), f2, {| MaxT := a; MinT := b |})
      | _, _ => None
      end
  | _ => None
  end.

Definition well_formed (text : string) : Prop := line_fields text <> None.

(** [forecast_dict[key][day]], when both keys are present. *)
Definition lookup (d : forecast) (key : station_key) (day : string)
  : option day_record :=
  match getitem d key with
  | Some days => getitem days day
  | None => None
  end.

(** The entry of the last line, if any, that names station [key] and
    [day]. *)
Definition last_entry (lines : list string) (key : station_key) (day : string)
  (before : option day_record) : option day_record :=
  fold_left
    (fun acc text =>
       match line_fields text with
       | Some (k, dy, r) => if keqb (key, day) (k, dy) then Some r else acc
       | None => acc
       end)
    lines before.

(** Keys are unique at both levels of the dictionary. *)
Definition unique_keys (d : forecast) : Prop :=
  NoDup (keys d) /\ forall key days, getitem d key = Some days -> NoDup (keys days).

Lemma last_entry_cons (text : string) (lines : list string) key day before :
  last_entry (text :: lines) key day before =
  last_entry lines key day
    match line_fields text with
    | Some (k, dy, r) => if keqb (key, day) (k, dy) then Some r else before
    | None => before
    end.
Proof. reflexivity. Qed.

Lemma process_line_fields (d : forecast) text key day r :
  line_fields text = Some (key, day, r) ->
  process_line pyfloat d text =
  match getitem d key with
  | Some days => (TryBranch, Ok (setitem d key (setitem days day r)))
  | None => (ExceptBranch, Ok (setitem d key [(day, r)]))
  end.
Proof.
  unfold line_fields, process_line.
  destruct (split " "%char text) as [|f0 [|f1 [|f2 [|f3 [|f4 rest]]]]]; try discriminate.
  destruct (pyfloat f3) as [a|] eqn:E3; try discriminate.
  destruct (pyfloat (drop_last f4)) as [b|] eqn:E4; try discriminate.
  intros Eq; inversion Eq; subst; clear Eq.
  unfold store_day, init_station, day_entry, float_of, index; simpl.
  rewrite E3, E4; simpl.
  destruct (getitem d (f0, f1)) as [days|] eqn:G; simpl; [reflexivity|].
  rewrite getitem_setitem_same; simpl.
  rewrite setitem_setitem. reflexivity.
Qed.

Lemma process_line_ok (d : forecast) text key day r :
  line_fields text = Some (key, day, r) ->
  exists d',
    snd (process_line pyfloat d text) = Ok d' /\
    (fst (process_line pyfloat d text) = ExceptBranch <-> getitem d key = None) /\
    (forall k dy,
        lookup d' k dy = if keqb (k, dy) (key, day) then Some r else lookup d k dy) /\
    (unique_keys d -> unique_keys d').
Proof.
  intros F. rewrite (process_line_fields d _ _ _ _ F).
  assert (L : forall days0 days1 : dict string day_record,
             (forall dy, getitem days1 dy =
                         if keqb dy day then Some r else getitem days0 dy) ->
             (getitem d key = Some days0 \/ (getitem d key = None /\ days0 = [])) ->
             forall k dy,
               lookup (setitem d key days1) k dy =
               if keqb (k, dy) (key, day) then Some r else lookup d k dy).
  { intros days0 days1 Hd Hg k dy. unfold lookup.
    change (keqb (k, dy) (key, day)) with (keqb k key && keqb dy day).
    destruct (keqb_dec key k) as [<-|N].
    - rewrite getitem_setitem_same, keqb_refl, Hd; simpl.
      destruct Hg as [-> | [-> ->]]; reflexivity.
    - rewrite getitem_setitem_other by assumption.
      rewrite (keqb_neq k key) by congruence. reflexivity. }
  destruct (getitem d key) as [days|] eqn:G; simpl.
  - exists (setitem d key (setitem days day r)). repeat split; try discriminate.
    + apply (L days); [|left; reflexivity].
      intros dy. destruct (keqb_dec day dy) as [<-|N].
      * rewrite getitem_setitem_same, keqb_refl; reflexivity.
      * rewrite getitem_setitem_other by assumption.
        rewrite (keqb_neq dy day) by congruence. reflexivity.
    + apply NoDup_keys_setitem. apply H.
    + intros k ds. destruct (keqb_dec key k) as [<-|N].
      * rewrite getitem_setitem_same. intros E; inversion E; subst.
        apply NoDup_keys_setitem. destruct H as [_ H]. eapply H; eassumption.
      * rewrite getitem_setitem_other by assumption. apply H.
  - exists (setitem d key [(day, r)]). repeat split; try discriminate; auto.
    + apply (L []); [|right; auto].
      intros dy; simpl. destruct (keqb dy day); reflexivity.
    + apply NoDup_keys_setitem. apply H.
    + intros k ds. destruct (keqb_dec key k) as [<-|N].
      * rewrite getitem_setitem_same. intros E; inversion E; subst.
        repeat constructor; simpl; tauto.
      * rewrite getitem_setitem_other by assumption. apply H.
Qed.

Lemma run_lines_app (l1 l2 : list string) (d : forecast) :
  run_lines pyfloat (l1 ++ l2) d =
  match run_lines pyfloat l1 d with
  | (bs1, Ok d1) =>
      let (bs2, r) := run_lines pyfloat l2 d1 in ((bs1 ++ bs2)%list, r)
  | (bs1, Raise e) => (bs1, Raise e)
  end.
Proof.
  revert d. induction l1 as [|text l1 IH]; intros d; simpl.
  - destruct (run_lines pyfloat l2 d); reflexivity.
  - destruct (process_line pyfloat d text) as [b [d'|e]]; [|reflexivity].
    rewrite IH.
    destruct (run_lines pyfloat l1 d') as [bs1 [d1|e]]; [|reflexivity].
    destruct (run_lines pyfloat l2 d1); reflexivity.
Qed.

Lemma run_lines_well_formed (lines : list string) (d : forecast) :
  Forall well_formed lines ->
  exists bs d',
    run_lines pyfloat lines d = (bs, Ok d') /\
    List.length bs = List.length lines /\
    (forall k dy, lookup d' k dy = last_entry lines k dy (lookup d k dy)) /\
    (unique_keys d -> unique_keys d').
Proof.
  intros W. revert d. induction W as [|text lines Wt W IH]; intros d.
  - exists [], d. simpl. auto.
  - unfold well_formed in Wt.
    destruct (line_fields text) as [[[key day] r]|] eqn:F; [|congruence].
    destruct (process_line_ok d _ _ _ _ F) as (d1 & E1 & _ & L1 & U1).
    destruct (IH d1) as (bs & d' & E & Len & L & U).
    cbn [run_lines]. destruct (process_line pyfloat d text) as [b r1]; simpl in E1; subst r1.
    rewrite E. exists (b :: bs), d'.
    split; [reflexivity|]. split; [simpl; congruence|]. split; [|auto].
    intros k dy. rewrite L, L1, last_entry_cons, F. reflexivity.
Qed.

Lemma parse_loop_seq (pre lines : list string) (d : forecast) :
  parse_loop pyfloat (pre ++ lines)%list
    (seq (List.length pre) (List.length lines)) d =
  run_lines pyfloat lines d.
Proof.
  revert pre d. induction lines as [|text lines IH]; intros pre d; simpl.
  - reflexivity.
  - unfold index. rewrite nth_error_app2, Nat.sub_diag by lia. simpl.
    destruct (process_line pyfloat d text) as [b [d'|e]]; [|reflexivity].
    specialize (IH (pre ++ [text])%list d').
    rewrite <- app_assoc, length_app, Nat.add_comm in IH. simpl in IH.
    rewrite IH. reflexivity.
Qed.

Lemma parse_skips_first (first : string) (rest : list string) :
  parse pyfloat (first :: rest) = run_lines pyfloat rest [].
Proof.
  unfold parse, range. simpl List.length.
  replace (S (List.length rest) - 1) with (List.length rest) by lia.
  apply (parse_loop_seq [first] rest).
Qed.

Lemma last_entry_Some_iff (lines : list string) key day before :
  (exists r, last_entry lines key day before = Some r) <->
  (exists r, before = Some r) \/
  (exists text r, In text lines /\ line_fields text = Some (key, day, r)).
Proof.
  revert before. induction lines as [|text lines IH]; intros before.
  - simpl. split; [auto|]. intros [E|(t & r & [] & _)]; assumption.
  - rewrite last_entry_cons, IH.
    destruct (line_fields text) as [[[k dy] r0]|] eqn:F.
    + destruct (keqb (key, day) (k, dy)) eqn:E.
      * apply keqb_spec in E. inversion E; subst k dy. split.
        -- intros _. right. exists text, r0. simpl; auto.
        -- intros _. left. exists r0. reflexivity.
      * split.
        -- intros [B|(t & r & I & Ft)]; [auto|]. right. exists t, r. simpl; auto.
        -- intros [B|(t & r & [<-|I] & Ft)]; [auto| |right; eauto].
           rewrite F in Ft. inversion Ft; subst.
           rewrite keqb_refl in E. discriminate.
    + split.
      * intros [B|(t & r & I & Ft)]; [auto|]. right. exists t, r. simpl; auto.
      * intros [B|(t & r & [<-|I] & Ft)]; [auto| congruence |right; eauto].
Qed.

(** C9. The loop runs over [range(1, len(contents))], which has no index
    0: the first line of the file is never parsed, so the result is that
    of the loop body over the remaining lines from the empty dictionary
    and does not depend on the first line; a file of one line gives the
    empty [forecast_dict]. *)
Theorem first_line_never_parsed (first first' : string) (rest : list string) :
  range 1 (List.length (first :: rest)) = seq 1 (List.length rest) /\
  parse pyfloat (first :: rest) = run_lines pyfloat rest [] /\
  parse pyfloat (first :: rest) = parse pyfloat (first' :: rest) /\
  parse pyfloat [first] = ([], Ok []).
Proof.
  split; [|split; [|split]].
  - unfold range. simpl List.length. f_equal. lia.
  - apply parse_skips_first.
  - rewrite !parse_skips_first. reflexivity.
  - rewrite parse_skips_first. reflexivity.
Qed.

(** C6. A line is split at single spaces; field 3 is converted to the
    ['MaxT'] float and field 4, less its last character, to the ['MinT']
    float; the entry is stored under the key (field 0, field 1) and the
    day of field 2. Field 0 is the latitude and field 1 the longitude:
    the second loop reads [lat] from [key[0]] and [lon] from [key[1]],
    next to the ['MaxT'] of day ['0']. *)
Theorem data_line_field_order (d : forecast) (text f0 f1 f2 f3 f4 : string)
  (rest : list string) (maxT minT : float) :
  split " "%char text = f0 :: f1 :: f2 :: f3 :: f4 :: rest ->
  pyfloat f3 = Some maxT ->
  pyfloat (drop_last f4) = Some minT ->
  exists d',
    snd (process_line pyfloat d text) = Ok d' /\
    lookup d' (f0, f1) f2 = Some {| MaxT := maxT; MinT := minT |} /\
    forall la lo,
      pyfloat f0 = Some la -> pyfloat f1 = Some lo -> f2 = day_out ->
      station_row pyfloat d' (f0, f1) = Ok (maxT, la, lo).
Proof.
  intros S E3 E4.
  assert (F : line_fields text =
              Some ((f0, f1), f2, {| MaxT := maxT; MinT := minT |})).
  { unfold line_fields. rewrite S, E3, E4. reflexivity. }
  destruct (process_line_ok d _ _ _ _ F) as (d' & E & _ & L & _).
  exists d'. split; [assumption|].
  assert (L0 := L (f0, f1) f2). rewrite keqb_refl in L0.
  split; [assumption|].
  intros la lo Ea Eo ->. unfold lookup in L0. unfold station_row, float_of.
  destruct (getitem d' (f0, f1)) as [days|]; [|discriminate]. simpl.
  rewrite L0. simpl. rewrite Ea, Eo. reflexivity.
Qed.

(** C3 (as amended). When every data line has its five fields and both
    temperature fields are accepted by [float], the loop ends normally
    with one branch per data line, and at each line the [except] branch
    is taken exactly when the station key is not yet in the dictionary
    built from the earlier lines: for a known key the [try] block stores
    the day in the station's entry, for a new key the handler creates the
    entry and stores the day in it. The final dictionary has unique keys
    at both levels and holds a day entry exactly for the (station, day)
    pairs of the data lines, the entry of the last line naming the pair. *)
Theorem except_branch_iff_new_station (contents : list string) :
  Forall well_formed (tl contents) ->
  exists bs d,
    parse pyfloat contents = (bs, Ok d) /\
    List.length bs = List.length (tl contents) /\
    (forall i text,
        nth_error (tl contents) i = Some text ->
        exists key day r d_i b,
          line_fields text = Some (key, day, r) /\
          snd (run_lines pyfloat (firstn i (tl contents)) []) = Ok d_i /\
          nth_error bs i = Some b /\
          (b = ExceptBranch <-> getitem d_i key = None) /\
          process_line pyfloat d_i text =
          (b, Ok match getitem d_i key with
                 | Some days => setitem d_i key (setitem days day r)
                 | None => setitem d_i key [(day, r)]
                 end)) /\
    unique_keys d /\
    (forall key day, lookup d key day = last_entry (tl contents) key day None) /\
    (forall key day,
        (exists r, lookup d key day = Some r) <->
        (exists text r,
            In text (tl contents) /\ line_fields text = Some (key, day, r))).
Proof.
  intros W.
  assert (P : parse pyfloat contents = run_lines pyfloat (tl contents) []).
  { destruct contents as [|first rest]; [reflexivity|apply parse_skips_first]. }
  set (data := tl contents) in *. clearbody data. rewrite P. clear P contents.
  destruct (run_lines_well_formed data [] W) as (bs & d & E & Len & L & U).
  exists bs, d. split; [assumption|]. split; [assumption|].
  split; [|split; [|split]].
  - intros i text Hn.
    destruct (nth_error_split _ _ Hn) as (l1 & l2 & -> & Hl).
    assert (W1 : Forall well_formed l1) by (apply Forall_app in W; tauto).
    assert (W2 : Forall well_formed (text :: l2)) by (apply Forall_app in W; tauto).
    assert (Wt : well_formed text) by (inversion W2; assumption).
    unfold well_formed in Wt.
    destruct (line_fields text) as [[[key day] r]|] eqn:F; [|congruence].
    destruct (run_lines_well_formed l1 [] W1) as (bs1 & d1 & E1 & Len1 & _ & _).
    rewrite <- Hl, firstn_app, Nat.sub_diag, firstn_all. cbn [firstn].
    rewrite app_nil_r, E1. cbn [snd].
    exists key, day, r, d1.
    rewrite run_lines_app, E1 in E. cbn [run_lines] in E.
    rewrite (process_line_fields d1 _ _ _ _ F) in E.
    rewrite (process_line_fields d1 _ _ _ _ F).
    destruct (getitem d1 key) as [days|] eqn:G.
    + exists TryBranch.
      destruct (run_lines pyfloat l2 _) as [bs2 r2] in E.
      inversion E; subst bs.
      rewrite nth_error_app2, Len1, Nat.sub_diag by lia.
      repeat split; try discriminate; auto.
    + exists ExceptBranch.
      destruct (run_lines pyfloat l2 _) as [bs2 r2] in E.
      inversion E; subst bs.
      rewrite nth_error_app2, Len1, Nat.sub_diag by lia.
      repeat split; auto.
  - apply U. split; [constructor|]. intros key days; discriminate.
  - intros key day. apply L.
  - intros key day. rewrite L. rewrite last_entry_Some_iff. simpl.
    split; [|auto]. intros [[r B]|H]; [discriminate|assumption].
Qed.

End LoadingFacts.

(** ** The station arrays *)

(** The bounding box in the words of the notebook: latitude in the open
    interval (24, 51), longitude in the open interval (-130, -65). *)
Definition in_box (lo la : float) : Prop :=
  (24 <? la)%float = true /\ (la <? 51)%float = true /\
  (-130 <? lo)%float = true /\ (lo <? -65)%float = true.

Definition in_boxb (lo la : float) : bool :=
  ((24 <? la)%float && (la <? 51)%float) &&
  ((-130 <? lo)%float && (lo <? -65)%float).

(** A station as the second loop reads it: (temperature, lat, lon). *)
Definition row_temperature (row : float * float * float) : float := fst (fst row).
Definition row_lat (row : float * float * float) : float := snd (fst row).
Definition row_lon (row : float * float * float) : float := snd row.
Definition row_coordinates (row : float * float * float) : float * float :=
  (row_lon row, row_lat row).
Definition row_in_box (row : float * float * float) : bool :=
  in_boxb (row_lon row) (row_lat row).

Lemma in_boxb_iff (lo la : float) : in_boxb lo la = true <-> in_box lo la.
Proof.
  unfold in_boxb, in_box. rewrite !andb_true_iff. tauto.
Qed.

Lemma in_box_open (lo la : float) :
  in_box lo la -> la <> 24%float /\ la <> 51%float /\
                  lo <> (-130)%float /\ lo <> (-65)%float.
Proof.
  intros (A & B & C & D).
  repeat split; intros ->; vm_compute in *; discriminate.
Qed.

Lemma sel_rows (rows : list (float * float * float)) :
  sel (map row_lat rows) (map row_lon rows) = map row_in_box rows.
Proof.
  unfold sel, logical_and, gt, lt.
  induction rows as [|[[t la] lo] rows IH]; [reflexivity|].
  simpl in *. rewrite IH. reflexivity.
Qed.

Lemma mask_rows_map {A B} (p : A -> bool) (f : A -> B) (rows : list A) :
  mask_rows (map p rows) (map f rows) = Ok (map f (filter p rows)).
Proof.
  induction rows as [|r rows IH]; [reflexivity|].
  simpl. rewrite IH. simpl. destruct (p r); reflexivity.
Qed.

Lemma combine_map {A B C} (f : A -> B) (g : A -> C) (l : list A) :
  combine (map f l) (map g l) = map (fun a => (f a, g a)) l.
Proof.
  induction l as [|a l IH]; [reflexivity|]. simpl. rewrite IH. reflexivity.
Qed.

Lemma filter_of_map {A B} (p : B -> bool) (f : A -> B) (l : list A) :
  filter p (map f l) = map f (filter (fun a => p (f a)) l).
Proof.
  induction l as [|a l IH]; [reflexivity|].
  simpl. destruct (p (f a)); simpl; rewrite IH; reflexivity.
Qed.

Lemma filter_stations_rows (rows : list (float * float * float)) :
  filter_stations (map row_temperature rows) (map row_lat rows) (map row_lon rows) =
  Ok (map row_coordinates (filter row_in_box rows),
      map row_temperature (filter row_in_box rows)).
Proof.
  unfold filter_stations. rewrite sel_rows, combine_map.
  rewrite (mask_rows_map row_in_box (fun a => (row_lon a, row_lat a))).
  simpl. rewrite mask_rows_map. reflexivity.
Qed.

Section StationsFacts.

Variable pyfloat : string -> option float.

(** [rows] lists, in key order, what the second loop reads for each
    station of the dictionary. *)
Definition station_rows (d : forecast) (rows : list (float * float * float))
  : Prop :=
  Forall2 (fun key row => station_row pyfloat d key = Ok row) (keys d) rows.

Lemma extract_loop_rows (d : forecast) (ks : list station_key) rows :
  Forall2 (fun key row => station_row pyfloat d key = Ok row) ks rows ->
  forall temperature lat lon,
    extract_loop pyfloat d ks temperature lat lon =
    Ok ((temperature ++ map row_temperature rows)%list,
        (lat ++ map row_lat rows)%list,
        (lon ++ map row_lon rows)%list).
Proof.
  induction 1 as [|key [[t la] lo] ks rows E F IH]; intros temperature lat lon.
  - simpl. rewrite !app_nil_r. reflexivity.
  - simpl. rewrite E. simpl. rewrite IH, <- !app_assoc. reflexivity.
Qed.

Lemma extract_rows (d : forecast) rows :
  station_rows d rows ->
  extract pyfloat d =
  Ok (map row_temperature rows, map row_lat rows, map row_lon rows).
Proof.
  intros F. unfold extract. rewrite (extract_loop_rows d (keys d) rows F). reflexivity.
Qed.

Lemma stations_rows (d : forecast) rows :
  station_rows d rows ->
  stations pyfloat d =
  Ok (map row_coordinates (filter row_in_box rows),
      map row_temperature (filter row_in_box rows)).
Proof.
  intros F. unfold stations. rewrite (extract_rows d rows F). simpl.
  apply filter_stations_rows.
Qed.

Lemma station_row_inv (d : forecast) key row :
  station_row pyfloat d key = Ok row ->
  exists entry,
    lookup d key day_out = Some entry /\ MaxT entry = row_temperature row /\
    pyfloat (fst key) = Some (row_lat row) /\
    pyfloat (snd key) = Some (row_lon row).
Proof.
  unfold station_row, lookup, float_of.
  destruct (getitem d key) as [days|]; [|discriminate]. simpl.
  destruct (getitem days day_out) as [entry|]; [|discriminate]. simpl.
  destruct (pyfloat (fst key)) as [la|]; [|discriminate]. simpl.
  destruct (pyfloat (snd key)) as [lo|]; [|discriminate]. simpl.
  intros E; inversion E; subst. exists entry. auto.
Qed.

(** C4. When the second loop can read every station (each has a day
    ['0'] entry and key strings accepted by [float]), the filtered arrays
    exist, have one length, and a station row is in them exactly when it
    is a station of the dictionary whose latitude lies in the open
    interval (24, 51) and whose longitude lies in the open interval
    (-130, -65); a station on one of the four bounds is not retained. *)
Theorem station_retained_iff_in_box (d : forecast)
  (rows : list (float * float * float)) :
  station_rows d rows ->
  exists sc sm,
    stations pyfloat d = Ok (sc, sm) /\
    List.length sc = List.length sm /\
    (forall lo la t,
        In ((lo, la), t) (combine sc sm) <-> In (t, la, lo) rows /\ in_box lo la) /\
    (forall lo la t,
        In ((lo, la), t) (combine sc sm) ->
        la <> 24%float /\ la <> 51%float /\
        lo <> (-130)%float /\ lo <> (-65)%float).
Proof.
  intros F. eexists _, _. split; [apply (stations_rows d rows F)|].
  assert (M : forall lo la t,
             In ((lo, la), t)
                (combine (map row_coordinates (filter row_in_box rows))
                         (map row_temperature (filter row_in_box rows))) <->
             In (t, la, lo) rows /\ in_box lo la).
  { intros lo la t. rewrite combine_map, in_map_iff. split.
    - intros ([[t' la'] lo'] & E & I). inversion E; subst.
      apply filter_In in I. rewrite <- in_boxb_iff. exact I.
    - intros [I B]. exists (t, la, lo). split; [reflexivity|].
      apply filter_In. rewrite <- in_boxb_iff in B. auto. }
  split; [rewrite !length_map; reflexivity|]. split; [exact M|].
  intros lo la t I. apply M in I. apply in_box_open. tauto.
Qed.

(** C8. One mask filters both arrays, so they stay paired and ordered:
    read side by side, the filtered coordinates and temperatures are the
    in-box stations in the order of the unfiltered arrays (the key order
    of the dictionary), each with its own temperature; hence at every
    index [i], [stations_maxT[i]] is the day-['0'] ['MaxT'] of a station
    key whose (longitude, latitude) is [stations_coordinates[i]]. *)
Theorem filter_preserves_pairing_and_order (d : forecast)
  (rows : list (float * float * float)) :
  station_rows d rows ->
  exists sc sm,
    stations pyfloat d = Ok (sc, sm) /\
    extract pyfloat d =
      Ok (map row_temperature rows, map row_lat rows, map row_lon rows) /\
    List.length sc = List.length sm /\
    combine sc sm =
      filter (fun r => in_boxb (fst (fst r)) (snd (fst r)))
        (combine (combine (map row_lon rows) (map row_lat rows))
                 (map row_temperature rows)) /\
    (forall i c t,
        nth_error sc i = Some c -> nth_error sm i = Some t ->
        exists key entry,
          In key (keys d) /\
          lookup d key day_out = Some entry /\ MaxT entry = t /\
          pyfloat (fst key) = Some (snd c) /\ pyfloat (snd key) = Some (fst c)).
Proof.
  intros F. eexists _, _. split; [apply (stations_rows d rows F)|].
  split; [apply (extract_rows d rows F)|].
  split; [rewrite !length_map; reflexivity|]. split.
  - rewrite !combine_map, filter_of_map. reflexivity.
  - intros i c t Hc Ht.
    rewrite nth_error_map in Hc, Ht.
    destruct (nth_error (filter row_in_box rows) i) as [row|] eqn:Hn;
      [|discriminate].
    simpl in Hc, Ht. inversion Hc; inversion Ht; subst.
    apply nth_error_In, filter_In in Hn. destruct Hn as [I _].
    unfold station_rows in F.
    assert (K : exists key, In key (keys d) /\ station_row pyfloat d key = Ok row).
    { clear -F I. induction F as [|key r ks rs E F IH]; [destruct I|].
      destruct I as [->|I].
      - exists key. simpl; auto.
      - destruct (IH I) as (k & Ik & Ek). exists k. simpl; auto. }
    destruct K as (key & Ik & Ek).
    destruct (station_row_inv d key row Ek) as (entry & L & Et & Ela & Elo).
    exists key, entry. auto.
Qed.

End StationsFacts.

(** ** A sample file *)

Definition nl : string := String "010"%char "".

(** A header and four data lines: one station with two days, one station
    on the southern bound, one in Alaska. *)
Definition sample_file : list string :=
  [ "lat lon day maxT minT" ++ nl;
    "30.5 -100.25 0 10.5 5.5" ++ nl;
    "30.5 -100.25 1 12 6" ++ nl;
    "24 -100 0 20 15" ++ nl;
    "61.25 -149.75 0 3 -4" ++ nl ].

Definition sample_forecast : forecast :=
  [ (("30.5", "-100.25"),
     [ ("0", {| MaxT := 10.5; MinT := 5.5 |});
       ("1", {| MaxT := 12; MinT := 6 |}) ]);
    (("24", "-100"), [ ("0", {| MaxT := 20; MinT := 15 |}) ]);
    (("61.25", "-149.75"), [ ("0", {| MaxT := 3; MinT := -4 |}) ]) ].

Definition sample_rows : list (float * float * float) :=
  [ (10.5, 30.5, -100.25); (20, 24, -100); (3, 61.25, -149.75) ]%float.

(** The second data line of this file has a temperature field that
    [float] refuses. *)
Definition malformed_file : list string :=
  [ "lat lon day maxT minT" ++ nl;
    "30.5 -100.25 0 10.5 5.5" ++ nl;
    "30.5 -100.25 1 n/a 6" ++ nl ].

Example parse_sample_file :
  parse decimal_float sample_file =
  ([ExceptBranch; TryBranch; ExceptBranch; ExceptBranch], Ok sample_forecast).
Proof. vm_compute. reflexivity. Qed.

Example load_sample_file :
  load decimal_float sample_file = Ok ([(-100.25, 30.5)%float], [10.5%float]).
Proof. vm_compute. reflexivity. Qed.

(** C3, the claim as stated fails: the third line of [malformed_file]
    names a station that is already in the dictionary, and still the
    [except] branch is entered, because the bare [except:] also catches
    the [ValueError] of [float('n/a')]; the handler then raises it again
    and the cell ends. *)
Lemma except_branch_taken_for_known_station :
  exists d,
    snd (run_lines decimal_float ["30.5 -100.25 0 10.5 5.5" ++ nl] []) = Ok d /\
    getitem d ("30.5", "-100.25") <> None /\
    fst (process_line decimal_float d ("30.5 -100.25 1 n/a 6" ++ nl)) = ExceptBranch /\
    parse decimal_float malformed_file =
    ([ExceptBranch; ExceptBranch], Raise ValueError).
Proof.
  eexists. split; [vm_compute; reflexivity|].
  split; [vm_compute; discriminate|].
  split; vm_compute; reflexivity.
Qed.

Lemma except_branch_iff_new_station_witness :
  Forall (well_formed decimal_float) (tl sample_file) /\
  exists bs d,
    parse decimal_float sample_file = (bs, Ok d) /\ List.length bs = 4.
Proof.
  assert (W : Forall (well_formed decimal_float) (tl sample_file)).
  { repeat constructor; unfold well_formed; vm_compute; discriminate. }
  split; [exact W|].
  destruct (except_branch_iff_new_station decimal_float sample_file W)
    as (bs & d & P & L & _).
  exists bs, d. split; [exact P|exact L].
Defined.

Lemma data_line_field_order_witness :
  exists d',
    snd (process_line decimal_float [] ("30.5 -100.25 0 10.5 5.5" ++ nl)) = Ok d' /\
    lookup d' ("30.5", "-100.25") "0" = Some {| MaxT := 10.5; MinT := 5.5 |} /\
    station_row decimal_float d' ("30.5", "-100.25") = Ok (10.5, 30.5, -100.25)%float.
Proof.
  destruct (data_line_field_order decimal_float []
              ("30.5 -100.25 0 10.5 5.5" ++ nl)
              "30.5" "-100.25" "0" "10.5" ("5.5" ++ nl) [] 10.5 5.5
              eq_refl eq_refl eq_refl) as (d' & E & L & R).
  exists d'. split; [exact E|]. split; [exact L|].
  apply R; reflexivity.
Defined.

Lemma station_retained_iff_in_box_witness :
  station_rows decimal_float sample_forecast sample_rows /\
  exists sc sm,
    stations decimal_float sample_forecast = Ok (sc, sm) /\
    (In ((-100.25, 30.5), 10.5)%float (combine sc sm) <->
     In (10.5, 30.5, -100.25)%float sample_rows /\ in_box (-100.25) 30.5).
Proof.
  assert (R : station_rows decimal_float sample_forecast sample_rows)
    by (repeat constructor).
  split; [exact R|].
  destruct (station_retained_iff_in_box decimal_float sample_forecast
              sample_rows R) as (sc & sm & E & _ & M & _).
  exists sc, sm. split; [exact E|apply M].
Defined.

Lemma filter_preserves_pairing_and_order_witness :
  station_rows decimal_float sample_forecast sample_rows /\
  exists sc sm,
    stations decimal_float sample_forecast = Ok (sc, sm) /\
    List.length sc = List.length sm.
Proof.
  assert (R : station_rows decimal_float sample_forecast sample_rows)
    by (repeat constructor).
  split; [exact R|].
  destruct (filter_preserves_pairing_and_order decimal_float sample_forecast
              sample_rows R) as (sc & sm & E & _ & L & _).
  exists sc, sm. split; [exact E|exact L].
Defined.

(** ** Further properties of the loading cell *)

Section LoadingErrors.

Variable pyfloat : string -> option float.

Lemma process_line_malformed (d : forecast) (text : string) :
  line_fields pyfloat text = None ->
  exists e,
    process_line pyfloat d text = (ExceptBranch, Raise e) /\
    (e = IndexError \/ e = ValueError) /\
    (List.length (split " "%char text) < 4 -> e = IndexError) /\
    (5 <= List.length (split " "%char text) -> e = ValueError).
Proof.
  unfold line_fields, process_line, store_day, init_station, day_entry,
    float_of, index.
  destruct (split " "%char text) as [|f0 [|f1 [|f2 [|f3 [|f4 rest]]]]]; simpl;
    try (intros _; exists IndexError; repeat split; auto; intros; lia).
  - destruct (pyfloat f3); simpl; intros _;
      [exists IndexError|exists ValueError]; repeat split; auto; intros; lia.
  - destruct (pyfloat f3); simpl;
      [destruct (pyfloat (drop_last f4)); simpl; [discriminate|]|];
      intros _; exists ValueError; repeat split; auto; intros; lia.
Qed.

(** X2. A data line that lacks a field or whose temperature fields [float]
    refuses is not skipped: the loop ends there, after the [except]
    branch was entered, with the [IndexError] (fewer than four fields) or
    [ValueError] (five fields or more) of that line, whatever follows. *)
Theorem parse_stops_at_first_malformed_line (first text : string)
  (good rest : list string) :
  Forall (well_formed pyfloat) good ->
  ~ well_formed pyfloat text ->
  exists bs e,
    parse pyfloat (first :: good ++ text :: rest) = (bs, Raise e) /\
    List.length bs = S (List.length good) /\
    last bs TryBranch = ExceptBranch /\
    (e = IndexError \/ e = ValueError) /\
    (List.length (split " "%char text) < 4 -> e = IndexError) /\
    (5 <= List.length (split " "%char text) -> e = ValueError).
Proof.
  intros W M.
  assert (F : line_fields pyfloat text = None).
  { unfold well_formed in M. destruct (line_fields pyfloat text);
      [exfalso; apply M; discriminate|reflexivity]. }
  rewrite parse_skips_first, run_lines_app.
  destruct (run_lines_well_formed pyfloat good [] W) as (bs & d & E & Len & _).
  rewrite E. cbn [run_lines].
  destruct (process_line_malformed d text F) as (e & P & K).
  rewrite P. exists (bs ++ [ExceptBranch])%list, e.
  split; [reflexivity|]. split; [rewrite length_app; simpl; lia|].
  split; [apply last_last|exact K].
Qed.

(** X3. Whatever the last character of the fifth field is, it is dropped
    before the conversion: for a line that ends in a newline the
    ['MinT'] entry is the float of the field, and for a last line
    without one it is the float of the field less its last digit. *)
Theorem min_temperature_drops_last_character (d : forecast)
  (text f0 f1 f2 f3 m : string) (c : ascii) (rest : list string)
  (maxT minT : float) :
  split " "%char text = f0 :: f1 :: f2 :: f3 :: (m ++ String c "") :: rest ->
  pyfloat f3 = Some maxT ->
  pyfloat m = Some minT ->
  exists d',
    snd (process_line pyfloat d text) = Ok d' /\
    lookup d' (f0, f1) f2 = Some {| MaxT := maxT; MinT := minT |}.
Proof.
  intros S E3 E4.
  assert (F : line_fields pyfloat text =
              Some ((f0, f1), f2, {| MaxT := maxT; MinT := minT |})).
  { unfold line_fields. rewrite S, drop_last_app, E3, E4. reflexivity. }
  destruct (process_line_ok pyfloat d _ _ _ _ F) as (d' & E & _ & L & _).
  exists d'. split; [assumption|].
  rewrite L, keqb_refl. reflexivity.
Qed.

Lemma process_line_keys (d d' : forecast) text key day r :
  line_fields pyfloat text = Some (key, day, r) ->
  snd (process_line pyfloat d text) = Ok d' ->
  forall k, In k (keys d') <-> In k (keys d) \/ k = key.
Proof.
  intros F. rewrite (process_line_fields pyfloat d _ _ _ _ F).
  destruct (getitem d key) as [days|] eqn:G; simpl; intros E k;
    inversion E; subst d'.
  - erewrite keys_setitem_present by eassumption.
    split; [auto|]. intros [I| ->]; [assumption|].
    eapply getitem_Some_keys; eassumption.
  - rewrite keys_setitem_absent by assumption.
    rewrite in_app_iff. simpl. intuition (subst; auto).
Qed.

Lemma run_lines_keys (lines : list string) (d d' : forecast) bs :
  Forall (well_formed pyfloat) lines ->
  run_lines pyfloat lines d = (bs, Ok d') ->
  forall k,
    In k (keys d') <->
    In k (keys d) \/
    exists text day r,
      In text lines /\ line_fields pyfloat text = Some (k, day, r).
Proof.
  intros W. revert d bs. induction W as [|text lines Wt W IH]; intros d bs E k.
  - simpl in E. inversion E; subst. split; [auto|].
    intros [I|(t & dy & r & [] & _)]; assumption.
  - unfold well_formed in Wt.
    destruct (line_fields pyfloat text) as [[[key day] r]|] eqn:F; [|congruence].
    destruct (process_line_ok pyfloat d _ _ _ _ F) as (d1 & E1 & _).
    cbn [run_lines] in E.
    destruct (process_line pyfloat d text) as [b r1] eqn:P.
    simpl in E1; subst r1.
    destruct (run_lines pyfloat lines d1) as [bs1 r1] eqn:R.
    inversion E; subst.
    rewrite (IH d1 bs1 R k).
    assert (K := process_line_keys d d1 text key day r F).
    rewrite P in K. specialize (K eq_refl k). rewrite K. split.
    + intros [[I| ->]|(t & dy & r0 & I & Ft)]; auto.
      * right. exists text, day, r. simpl; auto.
      * right. exists t, dy, r0. simpl; auto.
    + intros [I|(t & dy & r0 & [<-|I] & Ft)]; auto.
      * rewrite F in Ft. inversion Ft; subst. auto.
      * right. exists t, dy, r0. auto.
Qed.

(** X4. After a file of well-formed data lines, [forecast_dict] has a key
    exactly for the stations the data lines name, each once, and every
    station has at least one day entry. *)
Theorem parsed_stations_are_those_of_the_file (contents : list string)
  (bs : list branch) (d : forecast) :
  Forall (well_formed pyfloat) (tl contents) ->
  parse pyfloat contents = (bs, Ok d) ->
  NoDup (keys d) /\
  (forall key,
      In key (keys d) <->
      exists text day r,
        In text (tl contents) /\
        line_fields pyfloat text = Some (key, day, r)) /\
  (forall key, In key (keys d) -> exists day r, lookup d key day = Some r).
Proof.
  intros W P.
  assert (E : run_lines pyfloat (tl contents) [] = (bs, Ok d)).
  { destruct contents as [|first rest]; [exact P|].
    rewrite parse_skips_first in P. exact P. }
  destruct (run_lines_well_formed pyfloat (tl contents) [] W)
    as (bs' & d' & E' & _ & L & U).
  rewrite E in E'. inversion E'; subst bs' d'.
  assert (K : forall key,
             In key (keys d) <->
             exists text day r,
               In text (tl contents) /\
               line_fields pyfloat text = Some (key, day, r)).
  { intros key. rewrite (run_lines_keys _ [] d bs W E key). simpl.
    split; [intros [[]|H]; exact H|auto]. }
  split; [|split; [exact K|]].
  - apply U. split; [constructor|]. intros key days; discriminate.
  - intros key I. apply K in I. destruct I as (text & day & r & I & F).
    exists day. rewrite L.
    apply (last_entry_Some_iff pyfloat (tl contents) key day None).
    right. exists text, r. auto.
Qed.

Lemma station_row_ok_iff (d : forecast) (key : station_key) :
  (exists row, station_row pyfloat d key = Ok row) <->
  lookup d key day_out <> None /\
  pyfloat (fst key) <> None /\ pyfloat (snd key) <> None.
Proof.
  unfold station_row, lookup, float_of.
  destruct (getitem d key) as [days|]; simpl;
    [|split; [intros [row E]; discriminate|intros [N _]; congruence]].
  destruct (getitem days day_out) as [entry|]; simpl;
    [|split; [intros [row E]; discriminate|intros [N _]; congruence]].
  destruct (pyfloat (fst key)) as [la|]; simpl;
    [|split; [intros [row E]; discriminate|intros (_ & N & _); congruence]].
  destruct (pyfloat (snd key)) as [lo|]; simpl;
    [|split; [intros [row E]; discriminate|intros (_ & _ & N); congruence]].
  split; [intros _; repeat split; discriminate|eauto].
Qed.

Lemma station_row_error (d : forecast) (key : station_key) (e : exn) :
  station_row pyfloat d key = Raise e -> e = KeyError \/ e = ValueError.
Proof.
  unfold station_row, float_of.
  destruct (getitem d key) as [days|]; simpl;
    [|intros E; inversion E; auto].
  destruct (getitem days day_out) as [entry|]; simpl;
    [|intros E; inversion E; auto].
  destruct (pyfloat (fst key)) as [la|]; simpl;
    [|intros E; inversion E; auto].
  destruct (pyfloat (snd key)) as [lo|]; simpl;
    [discriminate|intros E; inversion E; auto].
Qed.

Lemma Forall_exists_Forall2 {A B} (P : A -> B -> Prop) (l : list A) :
  Forall (fun a => exists b, P a b) l -> exists l', Forall2 P l l'.
Proof.
  induction 1 as [|a l [b Hb] F [l' IH]].
  - exists []. constructor.
  - exists (b :: l'). constructor; assumption.
Qed.

Lemma extract_loop_outcome (d : forecast) (ks : list station_key)
  (temperature lat lon : list float) :
  match extract_loop pyfloat d ks temperature lat lon with
  | Ok _ => Forall (fun key => exists row, station_row pyfloat d key = Ok row) ks
  | Raise e =>
      (e = KeyError \/ e = ValueError) /\
      ~ Forall (fun key => exists row, station_row pyfloat d key = Ok row) ks
  end.
Proof.
  revert temperature lat lon.
  induction ks as [|key ks IH]; intros temperature lat lon; simpl.
  - constructor.
  - destruct (station_row pyfloat d key) as [[[t la] lo]|e] eqn:E; simpl.
    + specialize (IH (temperature ++ [t])%list (lat ++ [la])%list
                     (lon ++ [lo])%list).
      destruct (extract_loop pyfloat d ks _ _ _) as [r|e].
      * constructor; eauto.
      * destruct IH as [K N]. split; [exact K|].
        intros F. inversion F; subst. contradiction.
    + split; [eapply station_row_error; eassumption|].
      intros F. inversion F as [|k l [row R] F']; subst. congruence.
Qed.

(** X5. The second loop succeeds exactly when every station of the
    dictionary has a day-['0'] entry and key strings that [float]
    accepts; the three lists then have one entry per station. Otherwise
    the cell ends with a [KeyError] or a [ValueError], never with an
    [IndexError]. *)
Theorem extract_succeeds_iff (d : forecast) :
  ((exists temperature lat lon, extract pyfloat d = Ok (temperature, lat, lon)) <->
   (forall key, In key (keys d) ->
      lookup d key day_out <> None /\
      pyfloat (fst key) <> None /\ pyfloat (snd key) <> None)) /\
  (forall temperature lat lon,
      extract pyfloat d = Ok (temperature, lat, lon) ->
      List.length temperature = List.length (keys d) /\
      List.length lat = List.length (keys d) /\
      List.length lon = List.length (keys d)) /\
  (forall e, extract pyfloat d = Raise e -> e = KeyError \/ e = ValueError).
Proof.
  assert (O := extract_loop_outcome d (keys d) [] [] []).
  fold (extract pyfloat d) in O.
  assert (R : Forall (fun key => exists row, station_row pyfloat d key = Ok row)
                (keys d) ->
              exists rows,
                Forall2 (fun key row => station_row pyfloat d key = Ok row)
                  (keys d) rows /\
                extract pyfloat d =
                Ok (map row_temperature rows, map row_lat rows, map row_lon rows)).
  { intros F. destruct (Forall_exists_Forall2 _ _ F) as [rows F2].
    exists rows. split; [exact F2|]. apply extract_rows. exact F2. }
  split; [|split].
  - split.
    + intros (t & la & lo & E). rewrite E in O.
      rewrite Forall_forall in O. intros key I.
      apply station_row_ok_iff. apply O. exact I.
    + intros H.
      destruct R as (rows & _ & E).
      { apply Forall_forall. intros key I. apply station_row_ok_iff.
        apply H. exact I. }
      eauto.
  - intros t la lo E. rewrite E in O.
    destruct (R O) as (rows & F2 & E'). rewrite E in E'.
    inversion E'; subst. rewrite !length_map.
    rewrite (Forall2_length F2). auto.
  - intros e E. rewrite E in O. tauto.
Qed.

Lemma combine_filtered_In (rows : list (float * float * float)) lo la t :
  In ((lo, la), t)
     (combine (map row_coordinates (filter row_in_box rows))
              (map row_temperature (filter row_in_box rows))) <->
  In (t, la, lo) rows /\ in_box lo la.
Proof.
  rewrite combine_map, in_map_iff. split.
  - intros ([[t' la'] lo'] & E & I). inversion E; subst.
    apply filter_In in I. rewrite <- in_boxb_iff. exact I.
  - intros [I B]. exists (t, la, lo). split; [reflexivity|].
    apply filter_In. rewrite <- in_boxb_iff in B. auto.
Qed.

Lemma Forall2_In_r {A B} (P : A -> B -> Prop) (l : list A) (l' : list B) b :
  Forall2 P l l' -> In b l' -> exists a, In a l /\ P a b.
Proof.
  induction 1 as [|a0 b0 l l' H F IH]; intros I; [destruct I|].
  destruct I as [<-|I].
  - exists a0. simpl; auto.
  - destruct (IH I) as (a & Ia & Pa). exists a. simpl; auto.
Qed.

Lemma Forall2_In_l {A B} (P : A -> B -> Prop) (l : list A) (l' : list B) a :
  Forall2 P l l' -> In a l -> exists b, In b l' /\ P a b.
Proof.
  induction 1 as [|a0 b0 l l' H F IH]; intros I; [destruct I|].
  destruct I as [<-|I].
  - exists b0. simpl; auto.
  - destruct (IH I) as (b & Ib & Pb). exists b. simpl; auto.
Qed.

(** X6. The whole cell on a file of well-formed data lines in which every
    station has key strings that [float] accepts and a line for day
    ['0']: it returns the two arrays, of one length, and a coordinate
    pair with a temperature is a row of them exactly when some station of
    the file has these coordinates inside the bounding box and this
    ['MaxT'] in its last day-['0'] line. *)
Theorem load_returns_stations_in_box (contents : list string) :
  Forall (well_formed pyfloat) (tl contents) ->
  (forall text key day r,
      In text (tl contents) ->
      line_fields pyfloat text = Some (key, day, r) ->
      pyfloat (fst key) <> None /\ pyfloat (snd key) <> None /\
      last_entry pyfloat (tl contents) key day_out None <> None) ->
  exists sc sm,
    load pyfloat contents = Ok (sc, sm) /\
    List.length sc = List.length sm /\
    forall lo la t,
      In ((lo, la), t) (combine sc sm) <->
      exists text key day r entry,
        In text (tl contents) /\
        line_fields pyfloat text = Some (key, day, r) /\
        pyfloat (fst key) = Some la /\ pyfloat (snd key) = Some lo /\
        last_entry pyfloat (tl contents) key day_out None = Some entry /\
        MaxT entry = t /\ in_box lo la.
Proof.
  intros W H.
  assert (P : parse pyfloat contents = run_lines pyfloat (tl contents) []).
  { destruct contents as [|first rest]; [reflexivity|apply parse_skips_first]. }
  destruct (run_lines_well_formed pyfloat (tl contents) [] W)
    as (bs & d & E & _ & L0 & _).
  assert (L : forall k dy,
             lookup d k dy = last_entry pyfloat (tl contents) k dy None)
    by (intros; apply L0).
  clear L0.
  assert (K := run_lines_keys (tl contents) [] d bs W E).
  assert (R : Forall (fun key => exists row, station_row pyfloat d key = Ok row)
                (keys d)).
  { apply Forall_forall. intros key I. apply station_row_ok_iff.
    apply K in I. destruct I as [[]|(text & day & r & I & F)].
    destruct (H text key day r I F) as (A & B & C).
    rewrite L. auto. }
  destruct (Forall_exists_Forall2 _ _ R) as [rows F2].
  eexists _, _. split.
  { unfold load. rewrite P, E. simpl. apply stations_rows. exact F2. }
  split; [rewrite !length_map; reflexivity|].
  intros lo la t. rewrite combine_filtered_In. split.
  - intros [I B].
    destruct (Forall2_In_r _ _ _ _ F2 I) as (key & Ik & Er).
    destruct (station_row_inv pyfloat d key _ Er) as (entry & Le & Et & Ela & Elo).
    apply K in Ik. destruct Ik as [[]|(text & day & r & It & F)].
    exists text, key, day, r, entry. rewrite <- L.
    unfold row_temperature, row_lat, row_lon in *. simpl in *.
    repeat split; auto; apply B.
  - intros (text & key & day & r & entry & It & F & Ela & Elo & Le & Et & B).
    split; [|exact B].
    assert (Ik : In key (keys d)).
    { apply K. right. exists text, day, r. auto. }
    destruct (Forall2_In_l _ _ _ _ F2 Ik) as (row & Ir & Er).
    destruct (station_row_inv pyfloat d key _ Er) as (entry' & Le' & Et' & Ela' & Elo').
    rewrite L, Le in Le'. inversion Le'; subst entry'.
    destruct row as [[t' la'] lo']. unfold row_temperature, row_lat, row_lon in *.
    simpl in *. rewrite Ela in Ela'. rewrite Elo in Elo'.
    inversion Ela'; inversion Elo'; subst. exact Ir.
Qed.

End LoadingErrors.

Lemma arrays_as_rows (temperature lat lon : list float) :
  List.length lat = List.length temperature ->
  List.length lon = List.length temperature ->
  exists rows,
    temperature = map row_temperature rows /\
    lat = map row_lat rows /\ lon = map row_lon rows.
Proof.
  revert lat lon.
  induction temperature as [|t ts IH]; intros [|la las] [|lo los] Ha Ho;
    try discriminate.
  - exists []. auto.
  - destruct (IH las los) as (rows & -> & -> & ->);
      [simpl in Ha; lia|simpl in Ho; lia|].
    exists ((t, la, lo) :: rows). auto.
Qed.

Lemma filter_twice {A} (p : A -> bool) (l : list A) :
  filter p (filter p l) = filter p l.
Proof.
  induction l as [|a l IH]; [reflexivity|].
  simpl. destruct (p a) eqn:E; simpl; [rewrite E, IH|]; auto.
Qed.

(** X7. On three arrays of one length the filtering never raises, returns
    arrays of one length, and filtering its result again changes
    nothing. *)
Theorem filter_stations_idempotent (temperature lat lon : list float) :
  List.length lat = List.length temperature ->
  List.length lon = List.length temperature ->
  exists sc sm,
    filter_stations temperature lat lon = Ok (sc, sm) /\
    List.length sc = List.length sm /\
    List.length sm <= List.length temperature /\
    filter_stations sm (map snd sc) (map fst sc) = Ok (sc, sm).
Proof.
  intros Ha Ho.
  destruct (arrays_as_rows temperature lat lon Ha Ho) as (rows & -> & -> & ->).
  eexists _, _. split; [apply filter_stations_rows|].
  split; [rewrite !length_map; reflexivity|].
  split; [rewrite !length_map; apply filter_length_le|].
  rewrite !map_map.
  change (map (fun x => snd (row_coordinates x)) (filter row_in_box rows))
    with (map row_lat (filter row_in_box rows)).
  change (map (fun x => fst (row_coordinates x)) (filter row_in_box rows))
    with (map row_lon (filter row_in_box rows)).
  rewrite filter_stations_rows, filter_twice. reflexivity.
Qed.

Lemma parse_stops_at_first_malformed_line_witness :
  exists bs e,
    parse decimal_float malformed_file = (bs, Raise e) /\
    List.length bs = 2 /\ e = ValueError.
Proof.
  assert (W : Forall (well_formed decimal_float)
                ["30.5 -100.25 0 10.5 5.5" ++ nl]).
  { repeat constructor; unfold well_formed; vm_compute; discriminate. }
  assert (M : ~ well_formed decimal_float ("30.5 -100.25 1 n/a 6" ++ nl)).
  { unfold well_formed; vm_compute; intros N; apply N; reflexivity. }
  destruct (parse_stops_at_first_malformed_line decimal_float
              ("lat lon day maxT minT" ++ nl) ("30.5 -100.25 1 n/a 6" ++ nl)
              ["30.5 -100.25 0 10.5 5.5" ++ nl] [] W M)
    as (bs & e & P & L & _ & _ & _ & V).
  exists bs, e. split; [exact P|]. split; [exact L|].
  apply V. vm_compute. lia.
Defined.

Lemma min_temperature_drops_last_character_witness :
  exists d',
    snd (process_line decimal_float [] "30.5 -100.25 0 10.5 5.5") = Ok d' /\
    lookup d' ("30.5", "-100.25") "0" = Some {| MaxT := 10.5; MinT := 5 |}.
Proof.
  exact (min_temperature_drops_last_character decimal_float []
           "30.5 -100.25 0 10.5 5.5" "30.5" "-100.25" "0" "10.5" "5."
           "5"%char [] 10.5 5 eq_refl eq_refl eq_refl).
Defined.

Lemma parsed_stations_are_those_of_the_file_witness :
  NoDup (keys sample_forecast) /\
  forall key, In key (keys sample_forecast) ->
    exists day r, lookup sample_forecast key day = Some r.
Proof.
  assert (W : Forall (well_formed decimal_float) (tl sample_file)).
  { repeat constructor; unfold well_formed; vm_compute; discriminate. }
  destruct (parsed_stations_are_those_of_the_file decimal_float sample_file
              [ExceptBranch; TryBranch; ExceptBranch; ExceptBranch]
              sample_forecast W ltac:(vm_compute; reflexivity))
    as (N & _ & D).
  split; [exact N|exact D].
Defined.

Lemma load_returns_stations_in_box_witness :
  exists sc sm,
    load decimal_float sample_file = Ok (sc, sm) /\
    List.length sc = List.length sm.
Proof.
  assert (W : Forall (well_formed decimal_float) (tl sample_file)).
  { repeat constructor; unfold well_formed; vm_compute; discriminate. }
  destruct (load_returns_stations_in_box decimal_float sample_file W)
    as (sc & sm & E & L & _).
  { intros text key day r I F. simpl in I.
    repeat (destruct I as [<-|I];
            [vm_compute in F; inversion F; subst;
             repeat split; vm_compute; discriminate|]).
    destruct I. }
  exists sc, sm. split; [exact E|exact L].
Defined.

Lemma filter_stations_idempotent_witness :
  exists sc sm,
    filter_stations [10.5; 20; 3]%float [30.5; 24; 61.25]%float
      [-100.25; -100; -149.75]%float = Ok (sc, sm) /\
    filter_stations sm (map snd sc) (map fst sc) = Ok (sc, sm).
Proof.
  destruct (filter_stations_idempotent [10.5; 20; 3]%float
              [30.5; 24; 61.25]%float [-100.25; -100; -149.75]%float
              eq_refl eq_refl) as (sc & sm & E & _ & _ & I).
  exists sc, sm. split; [exact E|exact I].
Defined.

End Weather.

(* ===================================================================== *)
(** * Bandit notebook: the objective [max_Temp] *)
(* ===================================================================== *)

Module MaxTemp.

(** [class max_Temp]: [__init__] stores the two arrays. *)
Record max_Temp : Type := {
  stations_coordinates : list (float * float);
  stations_maxT : list float
}.

Definition float_of_nat (n : nat) : float := float_of_Z (Z.of_nat n).

(** [self.stations_coordinates == x] for a query [x] of one row: the
    comparison is broadcast over the rows, entry by entry. *)
Definition equal_entries (coordinates : list (float * float)) (x : float * float)
  : list (bool * bool) :=
  map (fun c => ((fst c =? fst x)%float, (snd c =? snd x)%float)) coordinates.

(** [.sum(axis=1)]: the number of equal entries of each row. *)
Definition sum_axis1 (m : list (bool * bool)) : list nat :=
  map (fun e => Nat.b2n (fst e) + Nat.b2n (snd e)) m.

(** [np.dot(w, column)] of a vector and an N x 1 column: a sum of
    products, here accumulated from the left (the products and sums
    evaluated below are exact, so the order does not show); a
    [ValueError] when the lengths differ. *)
Definition dot (w column : list float) : result float :=
  if Nat.eqb (List.length w) (List.length column)
  then Ok (fold_left (fun acc p => (acc + fst p * snd p)%float)
             (combine w column) 0%float)
  else Raise ValueError.

(** [def f(self, x)]: the result [...[:,None]] is a 1 x 1 array. *)
Definition f (self : max_Temp) (x : float * float) : result (list (list float)) :=
  let weights :=
    map (fun n => (0.5 * float_of_nat n)%float)
        (sum_axis1 (equal_entries (stations_coordinates self) x)) in
  v <- dot weights (stations_maxT self) ;;
  Ok [[v]].

(** Two stations on one meridian. *)
Definition two_stations : max_Temp :=
  {| stations_coordinates := [(-100, 30); (-100, 40)]%float;
     stations_maxT := [10; 20]%float |}.

(** C1, what the code does: queried at the coordinates of the first of
    [two_stations], whose temperature is 10, [f] returns 20: the second
    station shares the longitude, so half of its temperature is added. *)
Lemma f_adds_half_of_a_station_sharing_one_coordinate :
  nth_error (stations_coordinates two_stations) 0 = Some (-100, 30)%float /\
  nth_error (stations_maxT two_stations) 0 = Some 10%float /\
  f two_stations (-100, 30)%float = Ok [[20%float]].
Proof. repeat split. Qed.

(** With no other station sharing a coordinate the lookup is right. *)
Example f_single_station :
  f {| stations_coordinates := [(-100, 30); (-90, 40)]%float;
       stations_maxT := [10; 20]%float |} (-100, 30)%float = Ok [[10%float]].
Proof. reflexivity. Qed.

(** ** The objective on the arrays of the loading cell *)

Lemma mask_rows_length {A} (sel : list bool) (rows r : list A) :
  Weather.mask_rows sel rows = Ok r ->
  List.length r = List.length (filter (fun b => b) sel).
Proof.
  revert rows r. induction sel as [|b sel IH]; intros [|a rows] r; simpl;
    try discriminate.
  - intros E; inversion E; reflexivity.
  - destruct (Weather.mask_rows sel rows) as [rest|e] eqn:M; simpl;
      [|discriminate].
    intros E; inversion E; subst.
    destruct b; simpl; rewrite (IH rows rest M); reflexivity.
Qed.

Lemma load_lengths (pyfloat : string -> option float) (contents : list string)
  (sc : list (float * float)) (sm : list float) :
  Weather.load pyfloat contents = Ok (sc, sm) ->
  List.length sc = List.length sm.
Proof.
  unfold Weather.load, Weather.stations, Weather.filter_stations.
  destruct (snd (Weather.parse pyfloat contents)) as [d|e]; [|discriminate].
  simpl. destruct (Weather.extract pyfloat d) as [[[t la] lo]|e];
    [|discriminate].
  simpl.
  destruct (Weather.mask_rows (Weather.sel la lo) (combine lo la))
    as [c|e] eqn:Mc; [|discriminate].
  simpl.
  destruct (Weather.mask_rows (Weather.sel la lo) t) as [m|e] eqn:Mm;
    [|discriminate].
  simpl. intros E; inversion E; subst.
  rewrite (mask_rows_length _ _ _ Mc), (mask_rows_length _ _ _ Mm).
  reflexivity.
Qed.

Lemma f_outcome (self : max_Temp) (x : float * float) :
  (List.length (stations_coordinates self) = List.length (stations_maxT self) ->
   exists v, f self x = Ok [[v]]) /\
  (List.length (stations_coordinates self) <> List.length (stations_maxT self) ->
   f self x = Raise ValueError).
Proof.
  unfold f, dot, sum_axis1, equal_entries. rewrite !length_map.
  destruct (Nat.eqb_spec (List.length (stations_coordinates self))
              (List.length (stations_maxT self))) as [E|N]; simpl.
  - split; [eauto|contradiction].
  - split; [contradiction|reflexivity].
Qed.

(** X8. Whatever file was loaded, the objective built from the two arrays
    of the loading cell never raises: every query returns a 1 x 1
    array (the two arrays have one length, so [np.dot] accepts
    them). *)
Theorem f_total_on_loaded_arrays (pyfloat : string -> option float)
  (contents : list string) (sc : list (float * float)) (sm : list float)
  (x : float * float) :
  Weather.load pyfloat contents = Ok (sc, sm) ->
  exists v,
    f {| stations_coordinates := sc; stations_maxT := sm |} x = Ok [[v]].
Proof.
  intros L. apply f_outcome. simpl. eapply load_lengths; eassumption.
Qed.

Lemma f_total_on_loaded_arrays_witness :
  exists v,
    f {| stations_coordinates := [(-100.25, 30.5)%float];
         stations_maxT := [10.5%float] |} (-100.25, 30.5)%float = Ok [[v]].
Proof.
  exact (f_total_on_loaded_arrays Py.decimal_float Weather.sample_file
           [(-100.25, 30.5)%float] [10.5%float] (-100.25, 30.5)%float
           ltac:(vm_compute; reflexivity)).
Defined.

End MaxTemp.

(* ===================================================================== *)
(** * Modular notebook: the acquisition [jitter_integrated_EI] *)
(* ===================================================================== *)

Module IntegratedEI.

(** A two-dimensional numpy array, as its rows. *)
Definition matrix : Type := list (list float).

Definition float_of_nat (n : nat) : float := float_of_Z (Z.of_nat n).

(** [np.zeros((rows, cols))]. *)
Definition zeros (rows cols : nat) : matrix := repeat (repeat 0%float cols) rows.

(** [x.shape[1]] of an array with rows of one length. *)
Definition columns (x : matrix) : nat :=
  match x with
  | [] => 0
  | r :: _ => List.length r
  end.

(** [a += b] on arrays of one shape: entry by entry. *)
Definition add_rows (a b : list float) : list float :=
  map (fun p => (fst p + snd p)%float) (combine a b).

Definition iadd (a b : matrix) : matrix :=
  map (fun p => add_rows (fst p) (snd p)) (combine a b).

(** [a / n] with a Python integer [n] (numpy divides by [float(n)]). *)
Definition div_scalar (a : matrix) (n : nat) : matrix :=
  map (map (fun v => (v / float_of_nat n)%float)) a.

(** The length of each row; [has_shape m rows cols] is
    [m.shape == (rows, cols)]. *)
Definition shape (m : matrix) : list nat := map (@List.length float) m.

Definition has_shape (m : matrix) (rows cols : nat) : Prop :=
  shape m = repeat cols rows.

(** Entry [(i, j)] of an array (0 outside it). *)
Definition entry (m : matrix) (i j : nat) : float :=
  nth j (nth i m []) 0%float.

(** The sum of a list of floats from the left, starting at 0, and the
    arithmetic mean: the sum over the number of terms. *)
Definition fsum (l : list float) : float :=
  fold_left (fun acc v => (acc + v)%float) l 0%float.

Definition mean (l : list float) : float :=
  (fsum l / float_of_nat (List.length l))%float.

(** ** Facts about arrays *)

Lemma shape_zeros (rows cols : nat) : has_shape (zeros rows cols) rows cols.
Proof.
  unfold has_shape, shape, zeros.
  induction rows as [|rows IH]; simpl; [reflexivity|].
  rewrite repeat_length, IH. reflexivity.
Qed.

Lemma entry_zeros (rows cols i j : nat) : entry (zeros rows cols) i j = 0%float.
Proof.
  assert (R : forall c k, nth k (repeat 0%float c) 0%float = 0%float).
  { induction c as [|c IHc]; intros [|k]; simpl; auto. }
  unfold entry, zeros. revert i.
  induction rows as [|rows IH]; intros [|i]; simpl; auto;
    destruct j; reflexivity.
Qed.

Lemma length_add_rows (a b : list float) :
  List.length a = List.length b -> List.length (add_rows a b) = List.length a.
Proof.
  intros E. unfold add_rows. rewrite length_map, length_combine. lia.
Qed.

Lemma shape_iadd (a b : matrix) : shape a = shape b -> shape (iadd a b) = shape a.
Proof.
  unfold shape, iadd. revert b.
  induction a as [|ra a IH]; intros [|rb b] E; try discriminate; [reflexivity|].
  simpl in *. inversion E. rewrite length_add_rows by assumption.
  f_equal. apply IH. assumption.
Qed.

Lemma nth_add_rows (a b : list float) (j : nat) :
  List.length a = List.length b ->
  nth j (add_rows a b) 0%float = (nth j a 0 + nth j b 0)%float.
Proof.
  unfold add_rows. revert b j.
  induction a as [|va a IH]; intros [|vb b] j E; try discriminate.
  - destruct j; reflexivity.
  - destruct j as [|j]; simpl; [reflexivity|]. apply IH. simpl in E; lia.
Qed.

Lemma entry_iadd (a b : matrix) (i j : nat) :
  shape a = shape b ->
  entry (iadd a b) i j = (entry a i j + entry b i j)%float.
Proof.
  unfold entry, iadd, shape. revert b i.
  induction a as [|ra a IH]; intros [|rb b] i E; try discriminate.
  - destruct i, j; reflexivity.
  - simpl in E. inversion E. destruct i as [|i]; simpl.
    + apply nth_add_rows. assumption.
    + apply IH. assumption.
Qed.

Lemma entry_fold_iadd (ms : list matrix) (acc : matrix) (i j : nat) :
  Forall (fun m => shape m = shape acc) ms ->
  shape (fold_left iadd ms acc) = shape acc /\
  entry (fold_left iadd ms acc) i j =
  fold_left (fun s v => (s + v)%float) (map (fun m => entry m i j) ms)
    (entry acc i j).
Proof.
  revert acc. induction ms as [|m ms IH]; intros acc F; simpl; [auto|].
  inversion F as [|m' ms' Hm Hms]; subst.
  assert (S : shape (iadd acc m) = shape acc) by (apply shape_iadd; congruence).
  destruct (IH (iadd acc m)) as [Sh En].
  { rewrite S. assumption. }
  split; [congruence|]. rewrite En, entry_iadd by congruence. reflexivity.
Qed.

Lemma shape_div_scalar (m : matrix) (n : nat) : shape (div_scalar m n) = shape m.
Proof.
  unfold shape, div_scalar. rewrite map_map. apply map_ext.
  intros r. apply length_map.
Qed.

Lemma entry_div_scalar (m : matrix) (n i j : nat) :
  nth_error (shape m) i <> None ->
  (forall c, nth_error (shape m) i = Some c -> j < c) ->
  entry (div_scalar m n) i j = (entry m i j / float_of_nat n)%float.
Proof.
  unfold entry, div_scalar, shape. revert i.
  induction m as [|r m IH]; intros [|i] N B; simpl in *; try congruence.
  - specialize (B _ eq_refl). clear -B. revert j B.
    induction r as [|v r IHr]; intros [|j] B; simpl in *; try lia; auto.
    apply IHr. lia.
  - apply IH; assumption.
Qed.

Lemma nth_error_repeat_lt {A} (a : A) (n i : nat) :
  i < n -> nth_error (repeat a n) i = Some a.
Proof.
  revert i. induction n as [|n IH]; intros [|i] L; simpl; try lia; auto.
  apply IH. lia.
Qed.

Lemma last_is_nth {A} (l : list A) (d : A) :
  last l d = nth (List.length l - 1) l d.
Proof.
  induction l as [|a [|b l] IH]; try reflexivity.
  change (last (a :: b :: l) d) with (last (b :: l) d). rewrite IH.
  simpl. rewrite Nat.sub_0_r. reflexivity.
Qed.

Section Acquisition.

(** The library's objects: the surrogate model, the design space, the
    acquisition optimizer and the cost function. *)
Variables Model Space Optimizer Cost : Type.

(** The library's [AcquisitionEI] object: the [jitter] attribute and
    what its constructor was given. *)
Record AcquisitionEI : Type := {
  jitter : float;
  EI_model : Model;
  EI_space : Space;
  EI_optimizer : option Optimizer;
  EI_cost_withGradients : option Cost
}.

(** [ei.jitter = j]. *)
Definition set_jitter (ei : AcquisitionEI) (j : float) : AcquisitionEI :=
  {| jitter := j;
     EI_model := EI_model ei;
     EI_space := EI_space ei;
     EI_optimizer := EI_optimizer ei;
     EI_cost_withGradients := EI_cost_withGradients ei |}.

(** The library's constructor [AcquisitionEI(model, space, optimizer,
    cost_withGradients)] and its two methods, which read the object and
    leave it as it is. *)
Variable new_AcquisitionEI :
  Model -> Space -> option Optimizer -> option Cost -> AcquisitionEI.
Variable EI_acquisition_function : AcquisitionEI -> matrix -> matrix.
Variable EI_acquisition_function_withGradients :
  AcquisitionEI -> matrix -> matrix * matrix.

(** [numpy.random.beta(a, b, size)] over the state of the generator. *)
Variable Rng : Type.
Variable beta : float -> float -> nat -> Rng -> list float * Rng.

(** [class jitter_integrated_EI(AcquisitionBase)]: the attributes the
    base constructor stores and the five of [__init__]. *)
Record jitter_integrated_EI : Type := {
  model : Model;
  space : Space;
  optimizer : option Optimizer;
  par_a : float;
  par_b : float;
  num_samples : nat;
  samples : list float;
  EI : AcquisitionEI
}.

(** [self.EI.jitter = j]. *)
Definition set_EI_jitter (self : jitter_integrated_EI) (j : float)
  : jitter_integrated_EI :=
  {| model := model self;
     space := space self;
     optimizer := optimizer self;
     par_a := par_a self;
     par_b := par_b self;
     num_samples := num_samples self;
     samples := samples self;
     EI := set_jitter (EI self) j |}.

(** [def __init__(self, model, space, optimizer=None,
    cost_withGradients=None, par_a=1, par_b=1, num_samples=10)]. *)
Definition init (model : Model) (space : Space) (optimizer : option Optimizer)
  (cost_withGradients : option Cost) (par_a par_b : float) (num_samples : nat)
  (rng : Rng) : jitter_integrated_EI * Rng :=
  let (drawn, rng') := beta par_a par_b num_samples rng in
  ({| model := model;
      space := space;
      optimizer := optimizer;
      par_a := par_a;
      par_b := par_b;
      num_samples := num_samples;
      samples := drawn;
      EI := new_AcquisitionEI model space optimizer cost_withGradients |},
   rng').

(** The loop of [acquisition_function] over the indices [ks]. *)
Fixpoint acquisition_loop (ks : list nat) (self : jitter_integrated_EI)
  (x acqu_x : matrix) : result (matrix * jitter_integrated_EI) :=
  match ks with
  | [] => Ok (acqu_x, self)
  | k :: rest =>
      s <- index (samples self) k ;;
      let self := set_EI_jitter self s in
      let acqu_x := iadd acqu_x (EI_acquisition_function (EI self) x) in
      acquisition_loop rest self x acqu_x
  end.

(** [def acquisition_function(self, x)]: the value and the instance
    after the call. *)
Definition acquisition_function (self : jitter_integrated_EI) (x : matrix)
  : result (matrix * jitter_integrated_EI) :=
  let acqu_x := zeros (List.length x) 1 in
  ' (acqu_x, self') <-
    acquisition_loop (range 0 (num_samples self)) self x acqu_x ;;
  Ok (div_scalar acqu_x (num_samples self'), self').

(** The loop of [acquisition_function_withGradients]. *)
Fixpoint gradients_loop (ks : list nat) (self : jitter_integrated_EI)
  (x acqu_x acqu_x_grad : matrix)
  : result (matrix * matrix * jitter_integrated_EI) :=
  match ks with
  | [] => Ok (acqu_x, acqu_x_grad, self)
  | k :: rest =>
      s <- index (samples self) k ;;
      let self := set_EI_jitter self s in
      let (acqu_x_sample, acqu_x_grad_sample) :=
        EI_acquisition_function_withGradients (EI self) x in
      let acqu_x := iadd acqu_x acqu_x_sample in
      let acqu_x_grad := iadd acqu_x_grad acqu_x_grad_sample in
      gradients_loop rest self x acqu_x acqu_x_grad
  end.

(** [def acquisition_function_withGradients(self, x)]. *)
Definition acquisition_function_withGradients (self : jitter_integrated_EI)
  (x : matrix) : result (matrix * matrix * jitter_integrated_EI) :=
  let acqu_x := zeros (List.length x) 1 in
  let acqu_x_grad := zeros (List.length x) (columns x) in
  ' (acqu_x, acqu_x_grad, self') <-
    gradients_loop (range 0 (num_samples self)) self x acqu_x acqu_x_grad ;;
  Ok (div_scalar acqu_x (num_samples self'),
      div_scalar acqu_x_grad (num_samples self'),
      self').


(** ** The loops over the samples *)

(** The wrapped acquisition with its jitter set to [s]. *)
Definition EI_value (self : jitter_integrated_EI) (x : matrix) (s : float)
  : matrix :=
  EI_acquisition_function (set_jitter (EI self) s) x.

Definition EI_value_withGradients (self : jitter_integrated_EI) (x : matrix)
  (s : float) : matrix * matrix :=
  EI_acquisition_function_withGradients (set_jitter (EI self) s) x.

(** The two loop bodies run over the samples in order. *)
Fixpoint over_samples (ss : list float) (self : jitter_integrated_EI)
  (x acqu_x : matrix) : matrix * jitter_integrated_EI :=
  match ss with
  | [] => (acqu_x, self)
  | s :: rest =>
      let self := set_EI_jitter self s in
      over_samples rest self x
        (iadd acqu_x (EI_acquisition_function (EI self) x))
  end.

Fixpoint over_samples_withGradients (ss : list float)
  (self : jitter_integrated_EI) (x acqu_x acqu_x_grad : matrix)
  : matrix * matrix * jitter_integrated_EI :=
  match ss with
  | [] => (acqu_x, acqu_x_grad, self)
  | s :: rest =>
      let self := set_EI_jitter self s in
      let vg := EI_acquisition_function_withGradients (EI self) x in
      over_samples_withGradients rest self x
        (iadd acqu_x (fst vg)) (iadd acqu_x_grad (snd vg))
  end.

Lemma acquisition_loop_seq (ss pre : list float) (self : jitter_integrated_EI)
  (x acc : matrix) :
  samples self = (pre ++ ss)%list ->
  acquisition_loop (seq (List.length pre) (List.length ss)) self x acc =
  Ok (over_samples ss self x acc).
Proof.
  revert pre self acc. induction ss as [|s ss IH]; intros pre self acc E.
  - reflexivity.
  - simpl. unfold index. rewrite E, nth_error_app2, Nat.sub_diag by lia. simpl.
    specialize (IH (pre ++ [s])%list (set_EI_jitter self s)).
    rewrite length_app, Nat.add_comm in IH. simpl in IH.
    apply IH. rewrite <- app_assoc. exact E.
Qed.

Lemma gradients_loop_seq (ss pre : list float) (self : jitter_integrated_EI)
  (x acc accg : matrix) :
  samples self = (pre ++ ss)%list ->
  gradients_loop (seq (List.length pre) (List.length ss)) self x acc accg =
  Ok (over_samples_withGradients ss self x acc accg).
Proof.
  revert pre self acc accg.
  induction ss as [|s ss IH]; intros pre self acc accg E.
  - reflexivity.
  - simpl. unfold index. rewrite E, nth_error_app2, Nat.sub_diag by lia. simpl.
    destruct (EI_acquisition_function_withGradients
                (set_jitter (EI self) s) x) as [v g] eqn:Evg.
    specialize (IH (pre ++ [s])%list (set_EI_jitter self s)).
    rewrite length_app, Nat.add_comm in IH. simpl in IH.
    apply IH. rewrite <- app_assoc. exact E.
Qed.

Lemma over_samples_fold (ss : list float) (self : jitter_integrated_EI)
  (x acc : matrix) :
  over_samples ss self x acc =
  (fold_left iadd (map (EI_value self x) ss) acc,
   fold_left set_EI_jitter ss self).
Proof.
  revert self acc. induction ss as [|s ss IH]; intros self acc; [reflexivity|].
  simpl. rewrite IH. reflexivity.
Qed.

Lemma over_samples_withGradients_fold (ss : list float)
  (self : jitter_integrated_EI) (x acc accg : matrix) :
  over_samples_withGradients ss self x acc accg =
  (fold_left iadd (map (fun s => fst (EI_value_withGradients self x s)) ss) acc,
   fold_left iadd (map (fun s => snd (EI_value_withGradients self x s)) ss) accg,
   fold_left set_EI_jitter ss self).
Proof.
  revert self acc accg.
  induction ss as [|s ss IH]; intros self acc accg; [reflexivity|].
  simpl. rewrite IH. reflexivity.
Qed.

Lemma fold_set_EI_jitter (ss : list float) (self : jitter_integrated_EI) :
  fold_left set_EI_jitter ss self =
  match ss with
  | [] => self
  | _ :: _ => set_EI_jitter self (last ss 0%float)
  end.
Proof.
  revert self. induction ss as [|s ss IH]; intros self; [reflexivity|].
  simpl fold_left. rewrite IH. destruct ss; reflexivity.
Qed.

Lemma num_samples_fold (ss : list float) (self : jitter_integrated_EI) :
  num_samples (fold_left set_EI_jitter ss self) = num_samples self.
Proof. rewrite fold_set_EI_jitter. destruct ss; reflexivity. Qed.

Lemma mean_of_sum (ms : list matrix) (rows cols i j n : nat) :
  Forall (fun m => shape m = repeat cols rows) ms ->
  List.length ms = n -> i < rows -> j < cols ->
  has_shape (div_scalar (fold_left iadd ms (zeros rows cols)) n) rows cols /\
  entry (div_scalar (fold_left iadd ms (zeros rows cols)) n) i j =
  mean (map (fun m => entry m i j) ms).
Proof.
  intros F Len Hi Hj.
  destruct (entry_fold_iadd ms (zeros rows cols) i j) as [Sh En].
  { rewrite (shape_zeros rows cols). exact F. }
  rewrite (shape_zeros rows cols) in Sh.
  split.
  - unfold has_shape. rewrite shape_div_scalar. exact Sh.
  - rewrite entry_div_scalar.
    + rewrite En, entry_zeros. unfold mean, fsum. rewrite length_map, Len.
      reflexivity.
    + rewrite Sh, nth_error_repeat_lt by assumption. discriminate.
    + intros c. rewrite Sh, nth_error_repeat_lt by assumption.
      intros E; inversion E; subst. assumption.
Qed.

Lemma has_shape_div_sum (ms : list matrix) (rows cols n : nat) :
  Forall (fun m => shape m = repeat cols rows) ms ->
  has_shape (div_scalar (fold_left iadd ms (zeros rows cols)) n) rows cols.
Proof.
  intros F.
  destruct (entry_fold_iadd ms (zeros rows cols) 0 0) as [Sh _].
  { rewrite (shape_zeros rows cols). exact F. }
  unfold has_shape. rewrite shape_div_scalar, Sh. apply shape_zeros.
Qed.

Lemma acquisition_function_run (self : jitter_integrated_EI) (x : matrix) :
  List.length (samples self) = num_samples self ->
  acquisition_function self x =
  Ok (div_scalar
        (fold_left iadd (map (EI_value self x) (samples self))
           (zeros (List.length x) 1))
        (num_samples self),
      fold_left set_EI_jitter (samples self) self).
Proof.
  intros Len. unfold acquisition_function, range.
  rewrite Nat.sub_0_r, <- Len.
  rewrite (acquisition_loop_seq (samples self) [] self x _ eq_refl).
  simpl. rewrite over_samples_fold, num_samples_fold, Len. reflexivity.
Qed.

Lemma acquisition_function_withGradients_run (self : jitter_integrated_EI)
  (x : matrix) :
  List.length (samples self) = num_samples self ->
  acquisition_function_withGradients self x =
  Ok (div_scalar
        (fold_left iadd
           (map (fun s => fst (EI_value_withGradients self x s)) (samples self))
           (zeros (List.length x) 1))
        (num_samples self),
      div_scalar
        (fold_left iadd
           (map (fun s => snd (EI_value_withGradients self x s)) (samples self))
           (zeros (List.length x) (columns x)))
        (num_samples self),
      fold_left set_EI_jitter (samples self) self).
Proof.
  intros Len. unfold acquisition_function_withGradients, range.
  rewrite Nat.sub_0_r, <- Len.
  rewrite (gradients_loop_seq (samples self) [] self x _ _ eq_refl).
  simpl. rewrite over_samples_withGradients_fold, num_samples_fold, Len.
  reflexivity.
Qed.

Lemma Forall_map_shape (f : float -> matrix) (ss : list float) (rows cols : nat) :
  (forall s, has_shape (f s) rows cols) ->
  Forall (fun m => shape m = repeat cols rows) (map f ss).
Proof.
  intros H. apply Forall_forall. intros m I.
  apply in_map_iff in I. destruct I as (s & <- & _). apply H.
Qed.

(** ** The mean in the words of the notebook *)

(** The wrapped object with its [jitter] attribute equal to [s] and
    every other attribute as in [ei]. *)
Definition EI_with_jitter (ei : AcquisitionEI) (s : float) : AcquisitionEI :=
  {| jitter := s;
     EI_model := EI_model ei;
     EI_space := EI_space ei;
     EI_optimizer := EI_optimizer ei;
     EI_cost_withGradients := EI_cost_withGradients ei |}.

(** The count [n] as a float. *)
Definition count_as_float (n : nat) : float :=
  PrimFloat.of_uint63 (Uint63.of_Z (Z.of_nat n)).

(** The arithmetic mean over [k = 0..n-1] of [value k]: the sum of the
    values, taken from 0.0 in the order of [k], over [n]. *)
Definition mean_over_indices (n : nat) (value : nat -> float) : float :=
  (fold_left (fun acc k => acc + value k) (seq 0 n) 0 / count_as_float n)%float.

Lemma fold_left_seq_nth (g : float -> float) (l pre : list float) (acc : float) :
  fold_left (fun a k => (a + g (nth k (pre ++ l)%list 0))%float)
    (seq (List.length pre) (List.length l)) acc =
  fold_left (fun a v => (a + v)%float) (map g l) acc.
Proof.
  revert pre acc. induction l as [|v l IH]; intros pre acc; [reflexivity|].
  simpl. rewrite app_nth2, Nat.sub_diag by lia. simpl.
  specialize (IH (pre ++ [v])%list (acc + g v)%float).
  rewrite <- app_assoc, length_app, Nat.add_comm in IH. simpl in IH.
  exact IH.
Qed.

Lemma mean_as_indices (g : float -> float) (l : list float) :
  mean (map g l) =
  mean_over_indices (List.length l) (fun k => g (nth k l 0%float)).
Proof.
  unfold mean, fsum, mean_over_indices. rewrite length_map.
  rewrite <- (fold_left_seq_nth g l [] 0%float). reflexivity.
Qed.

Lemma acquisition_function_mean (self : jitter_integrated_EI) (x : matrix) :
  List.length (samples self) = num_samples self ->
  (forall ei, has_shape (EI_acquisition_function ei x) (List.length x) 1) ->
  exists r self',
    acquisition_function self x = Ok (r, self') /\
    samples self' = samples self /\
    has_shape r (List.length x) 1 /\
    forall i, i < List.length x ->
      entry r i 0 =
      mean_over_indices (num_samples self)
        (fun k =>
           entry (EI_acquisition_function
                    (EI_with_jitter (EI self) (nth k (samples self) 0%float))
                    x) i 0).
Proof.
  intros Len Sv. eexists _, _.
  split; [apply acquisition_function_run; exact Len|].
  split.
  { assert (K : forall ss s0,
               samples (fold_left set_EI_jitter ss s0) = samples s0)
      by (intros ss s0; rewrite fold_set_EI_jitter; destruct ss; reflexivity).
    apply K. }
  assert (F := Forall_map_shape (EI_value self x) (samples self) _ _
                 (fun s => Sv (set_jitter (EI self) s))).
  split; [apply has_shape_div_sum; exact F|].
  intros i Hi.
  destruct (mean_of_sum _ _ _ i 0 (num_samples self) F
              ltac:(rewrite length_map; exact Len) Hi (Nat.lt_0_succ 0))
    as [_ E].
  rewrite E, map_map, mean_as_indices, Len. reflexivity.
Qed.

Lemma acquisition_function_withGradients_mean (self : jitter_integrated_EI)
  (x : matrix) :
  List.length (samples self) = num_samples self ->
  (forall ei,
      has_shape (fst (EI_acquisition_function_withGradients ei x))
        (List.length x) 1 /\
      has_shape (snd (EI_acquisition_function_withGradients ei x))
        (List.length x) (columns x)) ->
  exists r g self',
    acquisition_function_withGradients self x = Ok (r, g, self') /\
    samples self' = samples self /\
    has_shape r (List.length x) 1 /\
    has_shape g (List.length x) (columns x) /\
    (forall i, i < List.length x ->
       entry r i 0 =
       mean_over_indices (num_samples self)
         (fun k =>
            entry (fst (EI_acquisition_function_withGradients
                          (EI_with_jitter (EI self)
                             (nth k (samples self) 0%float)) x)) i 0)) /\
    (forall i j, i < List.length x -> j < columns x ->
       entry g i j =
       mean_over_indices (num_samples self)
         (fun k =>
            entry (snd (EI_acquisition_function_withGradients
                          (EI_with_jitter (EI self)
                             (nth k (samples self) 0%float)) x)) i j)).
Proof.
  intros Len Sg. eexists _, _, _.
  split; [apply acquisition_function_withGradients_run; exact Len|].
  split.
  { assert (K : forall ss s0,
               samples (fold_left set_EI_jitter ss s0) = samples s0)
      by (intros ss s0; rewrite fold_set_EI_jitter; destruct ss; reflexivity).
    apply K. }
  assert (Fv := Forall_map_shape
                  (fun s => fst (EI_value_withGradients self x s))
                  (samples self) _ _
                  (fun s => proj1 (Sg (set_jitter (EI self) s)))).
  assert (Fg := Forall_map_shape
                  (fun s => snd (EI_value_withGradients self x s))
                  (samples self) _ _
                  (fun s => proj2 (Sg (set_jitter (EI self) s)))).
  split; [apply has_shape_div_sum; exact Fv|].
  split; [apply has_shape_div_sum; exact Fg|]. split.
  - intros i Hi.
    destruct (mean_of_sum _ _ _ i 0 (num_samples self) Fv
                ltac:(rewrite length_map; exact Len) Hi (Nat.lt_0_succ 0))
      as [_ E].
    rewrite E, map_map, mean_as_indices, Len. reflexivity.
  - intros i j Hi Hj.
    destruct (mean_of_sum _ _ _ i j (num_samples self) Fg
                ltac:(rewrite length_map; exact Len) Hi Hj) as [_ E].
    rewrite E, map_map, mean_as_indices, Len. reflexivity.
Qed.

(** C2. For an instance whose [samples] array has [num_samples] entries
    (as [__init__] leaves it) and a wrapped acquisition that returns an
    N x 1 value and an N x d gradient for the N x d input [x]:
    [acquisition_function(x)] returns the N x 1 array whose entry [i] is
    the arithmetic mean over [k = 0..num_samples-1] of entry [i] of the
    wrapped [acquisition_function(x)] evaluated on the wrapped object
    with its jitter equal to [samples[k]];
    [acquisition_function_withGradients(x)] returns the pair of such
    means of the wrapped values and of the wrapped gradients. *)
Theorem acquisition_is_mean_over_samples (self : jitter_integrated_EI)
  (x : matrix) :
  List.length (samples self) = num_samples self ->
  (forall ei, has_shape (EI_acquisition_function ei x) (List.length x) 1) ->
  (forall ei,
      has_shape (fst (EI_acquisition_function_withGradients ei x))
        (List.length x) 1 /\
      has_shape (snd (EI_acquisition_function_withGradients ei x))
        (List.length x) (columns x)) ->
  (exists r self',
      acquisition_function self x = Ok (r, self') /\
      has_shape r (List.length x) 1 /\
      forall i, i < List.length x ->
        entry r i 0 =
        mean_over_indices (num_samples self)
          (fun k =>
             entry (EI_acquisition_function
                      (EI_with_jitter (EI self) (nth k (samples self) 0%float))
                      x) i 0)) /\
  (exists r g self',
      acquisition_function_withGradients self x = Ok (r, g, self') /\
      has_shape r (List.length x) 1 /\
      has_shape g (List.length x) (columns x) /\
      (forall i, i < List.length x ->
         entry r i 0 =
         mean_over_indices (num_samples self)
           (fun k =>
              entry (fst (EI_acquisition_function_withGradients
                            (EI_with_jitter (EI self)
                               (nth k (samples self) 0%float)) x)) i 0)) /\
      (forall i j, i < List.length x -> j < columns x ->
         entry g i j =
         mean_over_indices (num_samples self)
           (fun k =>
              entry (snd (EI_acquisition_function_withGradients
                            (EI_with_jitter (EI self)
                               (nth k (samples self) 0%float)) x)) i j))).
Proof.
  intros Len Sv Sg. split.
  - destruct (acquisition_function_mean self x Len Sv)
      as (r & self' & E & _ & Sh & M).
    exists r, self'. auto.
  - destruct (acquisition_function_withGradients_mean self x Len Sg)
      as (r & g & self' & E & _ & Shr & Shg & Mr & Mg).
    exists r, g, self'. auto.
Qed.

(** C10. For an instance with [num_samples > 0] entries in [samples],
    both methods return, and the instance after the call is the one
    before it with the [jitter] attribute of the wrapped [AcquisitionEI]
    set to [samples[num_samples-1]]: [par_a], [par_b], [num_samples] and
    [samples] are as before. *)
Theorem jitter_left_at_last_sample (self : jitter_integrated_EI) (x : matrix) :
  0 < num_samples self ->
  List.length (samples self) = num_samples self ->
  exists r r' g' self',
    acquisition_function self x = Ok (r, self') /\
    acquisition_function_withGradients self x = Ok (r', g', self') /\
    self' =
      set_EI_jitter self (nth (num_samples self - 1) (samples self) 0%float) /\
    jitter (EI self') = nth (num_samples self - 1) (samples self) 0%float /\
    par_a self' = par_a self /\ par_b self' = par_b self /\
    num_samples self' = num_samples self /\ samples self' = samples self.
Proof.
  intros Pos Len.
  assert (Fin : fold_left set_EI_jitter (samples self) self =
                set_EI_jitter self
                  (nth (num_samples self - 1) (samples self) 0%float)).
  { rewrite fold_set_EI_jitter, last_is_nth, Len.
    destruct (samples self) eqn:S; [simpl in Len; lia|reflexivity]. }
  pose proof (acquisition_function_run self x Len) as R.
  pose proof (acquisition_function_withGradients_run self x Len) as G.
  rewrite Fin in R, G.
  eexists _, _, _, _. split; [exact R|]. split; [exact G|].
  repeat split.
Qed.

(** C5 (as amended). The array the acquisition averages over is drawn
    by the class's own constructor: [__init__] calls
    [beta(par_a, par_b, num_samples)] and stores the result in
    [samples]; when the draw has [num_samples] entries, both
    [acquisition_function] and [acquisition_function_withGradients]
    average over exactly that array, the wrapped object being the
    [AcquisitionEI] the constructor built with its jitter equal to the
    [k]-th drawn value, and leave the array in place. *)
Theorem samples_drawn_by_constructor (m : Model) (sp : Space)
  (o : option Optimizer) (c : option Cost) (a b : float) (n : nat) (rng : Rng)
  (x : matrix) :
  List.length (fst (beta a b n rng)) = n ->
  (forall ei, has_shape (EI_acquisition_function ei x) (List.length x) 1) ->
  (forall ei,
      has_shape (fst (EI_acquisition_function_withGradients ei x))
        (List.length x) 1 /\
      has_shape (snd (EI_acquisition_function_withGradients ei x))
        (List.length x) (columns x)) ->
  samples (fst (init m sp o c a b n rng)) = fst (beta a b n rng) /\
  snd (init m sp o c a b n rng) = snd (beta a b n rng) /\
  EI (fst (init m sp o c a b n rng)) = new_AcquisitionEI m sp o c /\
  (exists r self',
      acquisition_function (fst (init m sp o c a b n rng)) x = Ok (r, self') /\
      samples self' = fst (beta a b n rng) /\
      forall i, i < List.length x ->
        entry r i 0 =
        mean_over_indices n
          (fun k =>
             entry (EI_acquisition_function
                      (EI_with_jitter (new_AcquisitionEI m sp o c)
                         (nth k (fst (beta a b n rng)) 0%float)) x) i 0)) /\
  (exists r g self',
      acquisition_function_withGradients (fst (init m sp o c a b n rng)) x =
      Ok (r, g, self') /\
      samples self' = fst (beta a b n rng) /\
      (forall i, i < List.length x ->
         entry r i 0 =
         mean_over_indices n
           (fun k =>
              entry (fst (EI_acquisition_function_withGradients
                            (EI_with_jitter (new_AcquisitionEI m sp o c)
                               (nth k (fst (beta a b n rng)) 0%float)) x))
                i 0)) /\
      (forall i j, i < List.length x -> j < columns x ->
         entry g i j =
         mean_over_indices n
           (fun k =>
              entry (snd (EI_acquisition_function_withGradients
                            (EI_with_jitter (new_AcquisitionEI m sp o c)
                               (nth k (fst (beta a b n rng)) 0%float)) x))
                i j))).
Proof.
  intros Len Sv Sg.
  set (self0 := {| model := m; space := sp; optimizer := o;
                   par_a := a; par_b := b; num_samples := n;
                   samples := fst (beta a b n rng);
                   EI := new_AcquisitionEI m sp o c |}).
  assert (I : init m sp o c a b n rng = (self0, snd (beta a b n rng))).
  { unfold init, self0. destruct (beta a b n rng); reflexivity. }
  rewrite I. cbn [fst snd].
  split; [reflexivity|]. split; [reflexivity|]. split; [reflexivity|].
  split.
  - destruct (acquisition_function_mean self0 x Len Sv)
      as (r & self' & E & S & _ & M).
    exists r, self'. auto.
  - destruct (acquisition_function_withGradients_mean self0 x Len Sg)
      as (r & g & self' & E & S & _ & _ & Mr & Mg).
    exists r, g, self'. auto.
Qed.

(** ** Further properties of the two methods *)

Lemma acquisition_loop_app (ks1 ks2 : list nat) (self : jitter_integrated_EI)
  (x acc : matrix) :
  acquisition_loop (ks1 ++ ks2) self x acc =
  (r <- acquisition_loop ks1 self x acc ;;
   acquisition_loop ks2 (snd r) x (fst r)).
Proof.
  revert self acc. induction ks1 as [|k ks1 IH]; intros self acc; simpl.
  - reflexivity.
  - destruct (index (samples self) k) as [s|e]; simpl; [apply IH|reflexivity].
Qed.

Lemma gradients_loop_app (ks1 ks2 : list nat) (self : jitter_integrated_EI)
  (x acc accg : matrix) :
  gradients_loop (ks1 ++ ks2) self x acc accg =
  (r <- gradients_loop ks1 self x acc accg ;;
   gradients_loop ks2 (snd r) x (fst (fst r)) (snd (fst r))).
Proof.
  revert self acc accg.
  induction ks1 as [|k ks1 IH]; intros self acc accg; simpl.
  - reflexivity.
  - destruct (index (samples self) k) as [s|e]; simpl; [|reflexivity].
    destruct (EI_acquisition_function_withGradients _ x). apply IH.
Qed.

Lemma acquisition_loop_prefix (ss pre post : list float)
  (self : jitter_integrated_EI) (x acc : matrix) :
  samples self = (pre ++ ss ++ post)%list ->
  acquisition_loop (seq (List.length pre) (List.length ss)) self x acc =
  Ok (over_samples ss self x acc).
Proof.
  revert pre self acc. induction ss as [|s ss IH]; intros pre self acc E.
  - reflexivity.
  - simpl. unfold index. rewrite E, nth_error_app2, Nat.sub_diag by lia. simpl.
    specialize (IH (pre ++ [s])%list (set_EI_jitter self s)).
    rewrite length_app, Nat.add_comm in IH. simpl in IH.
    apply IH. rewrite <- app_assoc. exact E.
Qed.

Lemma gradients_loop_prefix (ss pre post : list float)
  (self : jitter_integrated_EI) (x acc accg : matrix) :
  samples self = (pre ++ ss ++ post)%list ->
  gradients_loop (seq (List.length pre) (List.length ss)) self x acc accg =
  Ok (over_samples_withGradients ss self x acc accg).
Proof.
  revert pre self acc accg.
  induction ss as [|s ss IH]; intros pre self acc accg E.
  - reflexivity.
  - simpl. unfold index. rewrite E, nth_error_app2, Nat.sub_diag by lia. simpl.
    destruct (EI_acquisition_function_withGradients
                (set_jitter (EI self) s) x) as [v g] eqn:Evg.
    specialize (IH (pre ++ [s])%list (set_EI_jitter self s)).
    rewrite length_app, Nat.add_comm in IH. simpl in IH.
    apply IH. rewrite <- app_assoc. exact E.
Qed.

Lemma samples_fold (ss : list float) (self : jitter_integrated_EI) :
  samples (fold_left set_EI_jitter ss self) = samples self.
Proof. rewrite fold_set_EI_jitter. destruct ss; reflexivity. Qed.



(** X10. With fewer than [num_samples] entries in [samples] both methods end
    with the [IndexError] of [self.samples[k]]. *)
Theorem too_few_samples_raise_IndexError (self : jitter_integrated_EI)
  (x : matrix) :
  List.length (samples self) < num_samples self ->
  acquisition_function self x = Raise IndexError /\
  acquisition_function_withGradients self x = Raise IndexError.
Proof.
  intros Lt.
  assert (S : seq 0 (num_samples self) =
              (seq 0 (List.length (samples self)) ++
               List.length (samples self) ::
               seq (S (List.length (samples self)))
                 (num_samples self - S (List.length (samples self))))%list).
  { replace (num_samples self)
      with (List.length (samples self) +
            S (num_samples self - S (List.length (samples self)))) at 1 by lia.
    rewrite seq_app. reflexivity. }
  assert (N : forall ss, index (samples (fold_left set_EI_jitter ss self))
                           (List.length (samples self)) = Raise IndexError).
  { intros ss. rewrite samples_fold. unfold index.
    replace (nth_error (samples self) (List.length (samples self)))
      with (@None float); [reflexivity|].
    symmetry. apply nth_error_None. lia. }
  split.
  - unfold acquisition_function, range. rewrite Nat.sub_0_r, S.
    rewrite acquisition_loop_app.
    rewrite (acquisition_loop_prefix (samples self) [] [] self x _
               (eq_sym (app_nil_r _))).
    simpl. rewrite over_samples_fold. simpl. rewrite N. reflexivity.
  - unfold acquisition_function_withGradients, range. rewrite Nat.sub_0_r, S.
    rewrite gradients_loop_app.
    rewrite (gradients_loop_prefix (samples self) [] [] self x _ _
               (eq_sym (app_nil_r _))).
    simpl. rewrite over_samples_withGradients_fold. simpl. rewrite N.
    reflexivity.
Qed.

Lemma div_scalar_zeros_0 (rows cols : nat) :
  div_scalar (zeros rows cols) 0 = repeat (repeat PrimFloat.nan cols) rows.
Proof.
  unfold div_scalar, zeros. rewrite map_repeat, map_repeat. reflexivity.
Qed.

(** X11. With [num_samples = 0] neither loop runs and nothing is raised: the
    zero arrays are divided by 0, so every entry returned is NaN, and
    the instance is left as it was. *)
Theorem zero_samples_give_nan (self : jitter_integrated_EI) (x : matrix) :
  num_samples self = 0 ->
  acquisition_function self x =
    Ok (repeat [PrimFloat.nan] (List.length x), self) /\
  acquisition_function_withGradients self x =
    Ok (repeat [PrimFloat.nan] (List.length x),
        repeat (repeat PrimFloat.nan (columns x)) (List.length x),
        self).
Proof.
  intros Z. unfold acquisition_function, acquisition_function_withGradients.
  rewrite Z. simpl. rewrite Z, !div_scalar_zeros_0. split; reflexivity.
Qed.

Lemma acquisition_function_jitter_irrelevant (self : jitter_integrated_EI)
  (x : matrix) (j : float) :
  0 < num_samples self ->
  List.length (samples self) = num_samples self ->
  acquisition_function (set_EI_jitter self j) x = acquisition_function self x /\
  acquisition_function_withGradients (set_EI_jitter self j) x =
  acquisition_function_withGradients self x.
Proof.
  intros Pos Len.
  rewrite (acquisition_function_run (set_EI_jitter self j) x Len).
  rewrite (acquisition_function_withGradients_run (set_EI_jitter self j) x Len).
  rewrite (acquisition_function_run self x Len).
  rewrite (acquisition_function_withGradients_run self x Len).
  rewrite !fold_set_EI_jitter. cbn [samples set_EI_jitter].
  destruct (samples self) as [|s ss]; [simpl in Len; lia|].
  split; reflexivity.
Qed.

(** X12. The side effect on the wrapped jitter does not show in later
    results: for an instance with [num_samples > 0] entries in
    [samples], what either method returns does not depend on the jitter
    the wrapped acquisition had before the call, and calling either
    method again on the instance the call left returns the same arrays
    and leaves the same instance. *)
Theorem acquisition_function_repeatable (self : jitter_integrated_EI)
  (x : matrix) :
  0 < num_samples self ->
  List.length (samples self) = num_samples self ->
  (forall j,
      acquisition_function (set_EI_jitter self j) x =
      acquisition_function self x /\
      acquisition_function_withGradients (set_EI_jitter self j) x =
      acquisition_function_withGradients self x) /\
  exists r r' g' self',
    acquisition_function self x = Ok (r, self') /\
    acquisition_function_withGradients self x = Ok (r', g', self') /\
    acquisition_function self' x = Ok (r, self') /\
    acquisition_function_withGradients self' x = Ok (r', g', self').
Proof.
  intros Pos Len. split.
  - intros j. apply acquisition_function_jitter_irrelevant; assumption.
  - assert (Fin : fold_left set_EI_jitter (samples self) self =
                  set_EI_jitter self (last (samples self) 0%float)).
    { rewrite fold_set_EI_jitter.
      destruct (samples self) eqn:S; [simpl in Len; lia|reflexivity]. }
    pose proof (acquisition_function_run self x Len) as R.
    pose proof (acquisition_function_withGradients_run self x Len) as G.
    rewrite Fin in R, G.
    destruct (acquisition_function_jitter_irrelevant self x
                (last (samples self) 0%float) Pos Len) as [R' G'].
    eexists _, _, _, _. split; [exact R|]. split; [exact G|].
    split; [rewrite R'; exact R|rewrite G'; exact G].
Qed.

(** X13. When the wrapped [acquisition_function_withGradients] returns the
    value of the wrapped [acquisition_function] next to the gradient,
    the two methods of the class agree as well: the first array of
    [acquisition_function_withGradients] is the array of
    [acquisition_function], and both leave the same instance. *)
Theorem value_of_withGradients_is_acquisition_function
  (self : jitter_integrated_EI) (x : matrix) :
  List.length (samples self) = num_samples self ->
  (forall ei, fst (EI_acquisition_function_withGradients ei x) =
              EI_acquisition_function ei x) ->
  exists r g self',
    acquisition_function self x = Ok (r, self') /\
    acquisition_function_withGradients self x = Ok (r, g, self').
Proof.
  intros Len C.
  rewrite (acquisition_function_run self x Len).
  rewrite (acquisition_function_withGradients_run self x Len).
  eexists _, _, _. split; [reflexivity|].
  do 3 f_equal. do 2 f_equal. apply map_ext. intros s. apply C.
Qed.

End Acquisition.

Arguments jitter {Model Space Optimizer Cost} _.
Arguments set_jitter {Model Space Optimizer Cost} ei j.
Arguments samples {Model Space Optimizer Cost} _.
Arguments num_samples {Model Space Optimizer Cost} _.
Arguments par_a {Model Space Optimizer Cost} _.
Arguments par_b {Model Space Optimizer Cost} _.
Arguments model {Model Space Optimizer Cost} _.
Arguments EI {Model Space Optimizer Cost} _.
Arguments set_EI_jitter {Model Space Optimizer Cost} self j.
Arguments init {Model Space Optimizer Cost} new_AcquisitionEI {Rng} beta
  model space optimizer cost_withGradients par_a par_b num_samples rng.
Arguments acquisition_function {Model Space Optimizer Cost}
  EI_acquisition_function self x.
Arguments acquisition_function_withGradients {Model Space Optimizer Cost}
  EI_acquisition_function_withGradients self x.
Arguments EI_value {Model Space Optimizer Cost} EI_acquisition_function self x s.

(** ** A sample instance *)

(** Stand-ins for the library: objects without content, a wrapped
    acquisition that depends on the jitter and returns arrays of the
    right shapes, and a generator that counts its draws. *)
Definition sample_new (m s : unit) (o c : option unit)
  : AcquisitionEI unit unit unit unit :=
  {| jitter := 0.125; EI_model := m; EI_space := s;
     EI_optimizer := o; EI_cost_withGradients := c |}.

Definition sample_acquisition (ei : AcquisitionEI unit unit unit unit)
  (x : matrix) : matrix :=
  map (fun row => [(hd 0 row - jitter ei)%float]) x.

Definition sample_withGradients (ei : AcquisitionEI unit unit unit unit)
  (x : matrix) : matrix * matrix :=
  (sample_acquisition ei x, map (map (fun v => (v * jitter ei)%float)) x).

Definition sample_beta (a b : float) (n : nat) (drawn : nat)
  : list float * nat :=
  (map (fun i => (a / (a + b) / float_of_nat (2 ^ (drawn + i)))%float) (seq 0 n),
   drawn + n).

Definition sample_instance (num_samples : nat)
  : jitter_integrated_EI unit unit unit unit :=
  fst (init sample_new sample_beta tt tt None None 1 1 num_samples 0).

Definition sample_x : matrix := [[1; 2]; [3; 4]]%float.

Example sample_instance_samples :
  samples (sample_instance 2) = [0.5; 0.25]%float.
Proof. reflexivity. Qed.

Example sample_acquisition_function :
  acquisition_function sample_acquisition (sample_instance 2) sample_x =
  Ok ([[0.625]; [2.625]]%float, set_EI_jitter (sample_instance 2) 0.25).
Proof. reflexivity. Qed.

Example sample_acquisition_function_withGradients :
  acquisition_function_withGradients sample_withGradients
    (sample_instance 2) sample_x =
  Ok ([[0.625]; [2.625]]%float,
      [[0.375; 0.75]; [1.125; 1.5]]%float,
      set_EI_jitter (sample_instance 2) 0.25).
Proof. reflexivity. Qed.

(** C5, the claim as stated fails: two instances built over the same
    library objects, and so around equal wrapped [AcquisitionEI] objects,
    average over different arrays, because each constructor draws its
    own from its [num_samples] argument; no array of the library is
    read. *)
Lemma samples_not_supplied_by_library :
  model (sample_instance 1) = model (sample_instance 2) /\
  EI (sample_instance 1) = EI (sample_instance 2) /\
  samples (sample_instance 1) <> samples (sample_instance 2).
Proof. repeat split. discriminate. Qed.

Lemma acquisition_is_mean_over_samples_witness :
  exists r r' g' self' self'',
    acquisition_function sample_acquisition (sample_instance 2) sample_x =
    Ok (r, self') /\
    entry r 0 0 = 0.625%float /\ entry r 1 0 = 2.625%float /\
    acquisition_function_withGradients sample_withGradients
      (sample_instance 2) sample_x = Ok (r', g', self'') /\
    entry r' 1 0 = 2.625%float /\
    entry g' 0 0 = 0.375%float /\ entry g' 1 1 = 1.5%float.
Proof.
  destruct (acquisition_is_mean_over_samples
              unit unit unit unit sample_acquisition sample_withGradients
              (sample_instance 2) sample_x eq_refl
              (fun ei => eq_refl) (fun ei => conj eq_refl eq_refl))
    as [(r & self' & E & _ & M) (r' & g' & self'' & E' & _ & _ & M' & G')].
  exists r, r', g', self', self''.
  split; [exact E|].
  split; [rewrite (M 0) by (simpl; lia); reflexivity|].
  split; [rewrite (M 1) by (simpl; lia); reflexivity|].
  split; [exact E'|].
  split; [rewrite (M' 1) by (simpl; lia); reflexivity|].
  split; [rewrite (G' 0 0) by (simpl; lia); reflexivity|].
  rewrite (G' 1 1) by (simpl; lia). reflexivity.
Defined.

Lemma jitter_left_at_last_sample_witness :
  exists r self',
    acquisition_function sample_acquisition (sample_instance 2) sample_x =
    Ok (r, self') /\
    jitter (EI self') = 0.25%float /\
    samples self' = samples (sample_instance 2).
Proof.
  destruct (jitter_left_at_last_sample
              unit unit unit unit sample_acquisition sample_withGradients
              (sample_instance 2) sample_x (Nat.lt_0_succ 1) eq_refl)
    as (r & r' & g' & self' & E & _ & _ & J & _ & _ & _ & S).
  exists r, self'. split; [exact E|]. split; [exact J|exact S].
Defined.

Lemma samples_drawn_by_constructor_witness :
  samples (sample_instance 2) = [0.5; 0.25]%float /\
  exists r r' g' self' self'',
    acquisition_function sample_acquisition (sample_instance 2) sample_x =
    Ok (r, self') /\
    samples self' = [0.5; 0.25]%float /\
    entry r 1 0 = 2.625%float /\
    acquisition_function_withGradients sample_withGradients
      (sample_instance 2) sample_x = Ok (r', g', self'') /\
    samples self'' = [0.5; 0.25]%float /\
    entry r' 1 0 = 2.625%float /\ entry g' 1 1 = 1.5%float.
Proof.
  destruct (samples_drawn_by_constructor
              unit unit unit unit sample_new sample_acquisition
              sample_withGradients nat sample_beta
              tt tt None None 1 1 2 0 sample_x eq_refl
              (fun ei => eq_refl) (fun ei => conj eq_refl eq_refl))
    as (S & _ & _ & (r & self' & E & S' & M)
        & (r' & g' & self'' & E' & S'' & M' & G')).
  split; [exact S|].
  exists r, r', g', self', self''.
  split; [exact E|]. split; [exact S'|].
  split; [rewrite (M 1) by (simpl; lia); reflexivity|].
  split; [exact E'|]. split; [exact S''|].
  split; [rewrite (M' 1) by (simpl; lia); reflexivity|].
  rewrite (G' 1 1) by (simpl; lia). reflexivity.
Defined.

(** An instance whose [samples] array was replaced after construction. *)
Definition sample_instance_with (n : nat) (ss : list float)
  : jitter_integrated_EI unit unit unit unit :=
  {| model := tt; space := tt; optimizer := None; par_a := 1; par_b := 1;
     num_samples := n; samples := ss; EI := sample_new tt tt None None |}.


Lemma too_few_samples_raise_IndexError_witness :
  acquisition_function sample_acquisition
    (sample_instance_with 2 [0.5%float]) sample_x = Raise IndexError.
Proof.
  exact (proj1 (too_few_samples_raise_IndexError
                  unit unit unit unit sample_acquisition sample_withGradients
                  (sample_instance_with 2 [0.5%float]) sample_x
                  ltac:(simpl; lia))).
Defined.

Lemma zero_samples_give_nan_witness :
  acquisition_function sample_acquisition (sample_instance 0) sample_x =
  Ok ([[PrimFloat.nan]; [PrimFloat.nan]], sample_instance 0).
Proof.
  exact (proj1 (zero_samples_give_nan
                  unit unit unit unit sample_acquisition sample_withGradients
                  (sample_instance 0) sample_x eq_refl)).
Defined.

Lemma acquisition_function_repeatable_witness :
  acquisition_function sample_acquisition
    (set_EI_jitter (sample_instance 2) 7) sample_x =
  acquisition_function sample_acquisition (sample_instance 2) sample_x.
Proof.
  exact (proj1 (proj1 (acquisition_function_repeatable
                         unit unit unit unit sample_acquisition
                         sample_withGradients (sample_instance 2) sample_x
                         ltac:(simpl; lia) eq_refl) 7%float)).
Defined.

Lemma value_of_withGradients_is_acquisition_function_witness :
  exists r g self',
    acquisition_function sample_acquisition (sample_instance 2) sample_x =
    Ok (r, self') /\
    acquisition_function_withGradients sample_withGradients
      (sample_instance 2) sample_x = Ok (r, g, self').
Proof.
  exact (value_of_withGradients_is_acquisition_function
           unit unit unit unit sample_acquisition sample_withGradients
           (sample_instance 2) sample_x eq_refl (fun ei => eq_refl)).
Defined.

End IntegratedEI.

(* ===================================================================== *)
(** * The two notebooks as scripts over the library *)
(* ===================================================================== *)

Module Notebooks.

(** Values the notebooks pass to the library. *)
#[warnings="-register-all"]
Inductive value : Type :=
| VNone
| VInt (n : Z)
| VBool (b : bool)
| VStr (s : string)
| VTuple (vs : list value)
| VList (vs : list value)
| VDict (items : list (string * value))
| VLocal (name : string)        (* an object of the notebook's own *)
| VObj (id : nat)               (* the result of library call number [id] *)
| VAttr (v : value) (name : string).

Inductive argument : Type :=
| Positional (v : value)
| Keyword (name : string) (v : value).

(** A call into GPyOpt or numpy's generator: [receiver.callee(arguments)].
    Loading the data, the notebook's own classes and the plots of
    matplotlib are not calls of these libraries and leave no entry. *)
Record call : Type := {
  receiver : option value;
  callee : string;
  arguments : list argument
}.

(** A script threads the log of the library calls made so far. *)
Definition Script (A : Type) : Type := list call -> A * list call.

Definition ret {A} (a : A) : Script A := fun log => (a, log).

Definition sbind {A B} (m : Script A) (k : A -> Script B) : Script B :=
  fun log => let (a, log') := m log in k a log'.

Definition library (receiver : option value) (callee : string)
  (arguments : list argument) : Script value :=
  fun log =>
    (VObj (List.length log),
     (log ++ [{| receiver := receiver; callee := callee;
                 arguments := arguments |}])%list).

Definition calls {A} (script : Script A) : list call := snd (script []).

Declare Scope script_scope.
Notation "x <- e ;; k" := (sbind e (fun x => k))
  (at level 61, e at next level, right associativity) : script_scope.
Notation "e ;;; k" := (sbind e (fun _ => k))
  (at level 61, right associativity) : script_scope.
Local Open Scope script_scope.

(** The bandit notebook, from the seeding to the optimization. *)
Definition bandit_notebook : Script value :=
  library None "numpy.random.seed" [Positional (VInt 123)] ;;;
  myBopt <- library None "GPyOpt.methods.BayesianOptimization"
    [ Keyword "f" (VAttr (VLocal "func") "f");
      Keyword "domain"
        (VList [VDict [("name", VStr "stations"); ("type", VStr "bandit");
                       ("domain", VLocal "stations_coordinates")]]);
      Keyword "initial_design_numdata" (VInt 5);
      Keyword "acquisition_type" (VStr "EI");
      Keyword "exact_feval" (VBool true);
      Keyword "normalize_Y" (VBool false);
      Keyword "optimize_restarts" (VInt 10);
      Keyword "acquisition_weight" (VInt 2);
      Keyword "de_duplication" (VBool true) ] ;;
  let max_iter := 50%Z in
  library (Some myBopt) "run_optimization" [Positional (VInt max_iter)].

(** [jitter_integrated_EI(model, space, optimizer=..., par_a=..,
    par_b=.., num_samples=..)]: the constructor of the notebook's class
    calls the base constructor, the generator and [AcquisitionEI]. *)
Definition new_jitter_integrated_EI (model space optimizer cost : value)
  (par_a par_b num_samples : Z) : Script value :=
  library (Some (VLocal "acquisition")) "AcquisitionBase.__init__"
    [Positional model; Positional space; Positional optimizer] ;;;
  library None "numpy.random.beta"
    [Positional (VInt par_a); Positional (VInt par_b);
     Positional (VInt num_samples)] ;;;
  library None "GPyOpt.acquisitions.EI.AcquisitionEI"
    [Positional model; Positional space; Positional optimizer;
     Positional cost] ;;;
  ret (VLocal "acquisition").

(** The modular notebook. *)
Definition modular_notebook : Script value :=
  func <- library None "GPyOpt.objective_examples.experiments2d.branin" [] ;;
  library (Some func) "plot" [] ;;;
  objective <- library None "GPyOpt.core.task.SingleObjective"
    [Positional (VAttr func "f")] ;;
  space <- library None "GPyOpt.Design_space"
    [ Keyword "space"
        (VList
           [ VDict [("name", VStr "var_1"); ("type", VStr "continuous");
                    ("domain", VTuple [VInt (-5); VInt 10])];
             VDict [("name", VStr "var_2"); ("type", VStr "continuous");
                    ("domain", VTuple [VInt 1; VInt 15])] ]) ] ;;
  model <- library None "GPyOpt.models.GPModel"
    [Keyword "optimize_restarts" (VInt 5); Keyword "verbose" (VBool false)] ;;
  aquisition_optimizer <- library None "GPyOpt.optimization.AcquisitionOptimizer"
    [Positional space] ;;
  initial_design <- library None "GPyOpt.util.general.initial_design"
    [Positional (VStr "random"); Positional space; Positional (VInt 5)] ;;
  acquisition <- new_jitter_integrated_EI model space aquisition_optimizer
    VNone 1 10 2000 ;;
  evaluator <- library None "GPyOpt.core.evaluators.Sequential"
    [Positional acquisition] ;;
  bo <- library None "GPyOpt.methods.ModularBayesianOptimization"
    [Positional model; Positional space; Positional objective;
     Positional acquisition; Positional evaluator; Positional initial_design] ;;
  let max_iter := 10%Z in
  library (Some bo) "run_optimization" [Keyword "max_iter" (VInt max_iter)] ;;;
  library (Some bo) "plot_acquisition" [] ;;;
  library (Some bo) "plot_convergence" [].

(** Python's binding of the arguments of a call to the parameter names
    of the callee's signature (after [self]); [None] when there are more
    positional arguments than parameters. *)
Fixpoint bind_arguments (signature : list string) (args : list argument)
  : option (list (string * value)) :=
  match args with
  | [] => Some []
  | Positional v :: rest =>
      match signature with
      | p :: ps => option_map (cons (p, v)) (bind_arguments ps rest)
      | [] => None
      end
  | Keyword name v :: rest =>
      option_map (cons (name, v)) (bind_arguments signature rest)
  end.

Definition is_run_optimization (c : call) : bool :=
  String.eqb (callee c) "run_optimization".

Definition keyword_names (c : call) : list string :=
  flat_map (fun a => match a with
                     | Keyword name _ => [name]
                     | Positional _ => []
                     end) (arguments c).

(** The arguments of the library's [run_optimization] that stop the
    loop: the iteration budget, the time budget and the distance
    tolerance. *)
Definition stopping_parameters : list string := ["max_iter"; "max_time"; "eps"].

Definition configures_stopping (c : call) : bool :=
  existsb (fun name => existsb (String.eqb name) stopping_parameters)
    (keyword_names c).

(** C7. Each notebook calls [run_optimization] once. Bound to a
    signature whose first parameter is [max_iter] (the library's), the
    call of the bandit notebook passes [max_iter = 50] and that of the
    modular notebook [max_iter = 10], and neither passes anything else;
    no other library call of the notebooks names a stopping parameter. *)
Theorem optimization_run_once_with_max_iter (signature others : list string) :
  signature = "max_iter" :: others ->
  map (fun c => bind_arguments signature (arguments c))
      (filter is_run_optimization (calls bandit_notebook)) =
    [Some [("max_iter", VInt 50)]] /\
  map (fun c => bind_arguments signature (arguments c))
      (filter is_run_optimization (calls modular_notebook)) =
    [Some [("max_iter", VInt 10)]] /\
  forall c,
    In c (calls bandit_notebook ++ calls modular_notebook)%list ->
    is_run_optimization c = false -> configures_stopping c = false.
Proof.
  intros ->. split; [reflexivity|]. split; [reflexivity|].
  intros c I. vm_compute in I.
  repeat (destruct I as [<-|I]; [vm_compute; auto|]).
  destruct I.
Qed.

Lemma optimization_run_once_with_max_iter_witness :
  map (fun c => bind_arguments ["max_iter"; "max_time"; "eps"] (arguments c))
      (filter is_run_optimization (calls bandit_notebook)) =
    [Some [("max_iter", VInt 50)]] /\
  map (fun c => bind_arguments ["max_iter"; "max_time"; "eps"] (arguments c))
      (filter is_run_optimization (calls modular_notebook)) =
    [Some [("max_iter", VInt 10)]].
Proof.
  destruct (optimization_run_once_with_max_iter
              ["max_iter"; "max_time"; "eps"] ["max_time"; "eps"] eq_refl)
    as (B & M & _).
  split; [exact B|exact M].
Defined.

End Notebooks.
